(** * PIA qBittorrent Port Helper: a model of [app.py] and its properties

    The program watches a port file and pushes the port it holds to
    qBittorrent through the WebUI API.  This development embeds the two
    classes of [app.py] ([QBittorrentAPI], [PortFileHandler]) and the
    start-up part of [main] as functions in a state-and-exception monad over
    a [world]: the two Python objects, the file system and the HTTP server as
    the program sees them, and the trace of what the program did. *)

From Stdlib Require Import ZArith String Ascii List Bool DecimalString.
From Stdlib Require DecimalPos.
Import ListNotations.
Local Open Scope string_scope.
Local Open Scope Z_scope.

(** ** Python values *)

(** A Python [str] is modelled as a [string] whose characters are code points
    below 256. *)
Module Py.

Definition code (c : ascii) : Z := Z.of_nat (nat_of_ascii c).

(** [str.isspace] on one character, for code points below 256. *)
Definition isspace (c : ascii) : bool :=
  let n := code c in
  ((9 <=? n) && (n <=? 13)) || ((28 <=? n) && (n <=? 32))
  || (n =? 133) || (n =? 160).

Fixpoint lstrip (s : string) : string :=
  match s with
  | EmptyString => EmptyString
  | String c r => if isspace c then lstrip r else s
  end.

Definition reverse (s : string) : string :=
  string_of_list_ascii (rev (list_ascii_of_string s)).

Definition rstrip (s : string) : string := reverse (lstrip (reverse s)).

(** [s.strip()] *)
Definition strip (s : string) : string := lstrip (rstrip s).

(** [s.rstrip('/')] *)
Fixpoint lstrip_char (x : ascii) (s : string) : string :=
  match s with
  | EmptyString => EmptyString
  | String c r => if Ascii.eqb c x then lstrip_char x r else s
  end.

Definition rstrip_char (x : ascii) (s : string) : string :=
  reverse (lstrip_char x (reverse s)).

(** Truth value of a [str]: the empty string is false. *)
Definition truthy_str (s : string) : bool :=
  match s with EmptyString => false | _ => true end.

Definition digit (c : ascii) : option Z :=
  let n := code c in
  if (48 <=? n) && (n <=? 57) then Some (n - 48) else None.

(** The rest of a decimal literal after a digit: digits, each optionally
    preceded by one underscore. *)
Fixpoint int_tail (s : string) (acc : Z) : option Z :=
  match s with
  | EmptyString => Some acc
  | String c r =>
      match digit c with
      | Some d => int_tail r (10 * acc + d)
      | None =>
          if Ascii.eqb c "_" then
            match r with
            | String c' r' =>
                match digit c' with
                | Some d => int_tail r' (10 * acc + d)
                | None => None
                end
            | EmptyString => None
            end
          else None
      end
  end.

Definition int_unsigned (s : string) : option Z :=
  match s with
  | String c r =>
      match digit c with
      | Some d => int_tail r d
      | None => None
      end
  | EmptyString => None
  end.

(** [int(s)] in base 10; [None] stands for [ValueError].  The interpreter's
    limit on the number of digits is not modelled. *)
Definition int (s : string) : option Z :=
  match strip s with
  | String c r =>
      if Ascii.eqb c "+" then int_unsigned r
      else if Ascii.eqb c "-" then option_map Z.opp (int_unsigned r)
      else int_unsigned (String c r)
  | EmptyString => None
  end.

(** [str(n)] for an [int]. *)
Definition str_of_int (n : Z) : string := NilZero.string_of_int (Z.to_int n).

End Py.

(** ** JSON *)

#[local] Set Warnings "-register-all".


(** What [response.json()] can return.  Numbers with a fraction or an
    exponent (Python [float]) are outside the model. *)
Inductive json : Type :=
| JNull
| JBool (b : bool)
| JInt (n : Z)
| JString (s : string)
| JArray (items : list json)
| JObject (items : list (string * json)).

(** Truth value of a JSON value as a Python object ([if prefs:]). *)
Definition json_truthy (j : json) : bool :=
  match j with
  | JNull => false
  | JBool b => b
  | JInt n => negb (n =? 0)
  | JString s => Py.truthy_str s
  | JArray l => match l with [] => false | _ => true end
  | JObject l => match l with [] => false | _ => true end
  end.

Fixpoint dict_get (d : list (string * json)) (k : string) : json :=
  match d with
  | [] => JNull
  | (k', v) :: d' => if String.eqb k' k then v else dict_get d' k
  end.

(** [j == n] for a parsed JSON value [j] and an [int] [n]; [True == 1] and
    [False == 0] hold in Python. *)
Definition json_eq_int (j : json) (n : Z) : bool :=
  match j with
  | JInt m => m =? n
  | JBool b => (if b then 1 else 0) =? n
  | _ => false
  end.

(** The values of the [preferences] dict built by [set_port]. *)
Inductive scalar : Type :=
| PInt (n : Z)
| PBool (b : bool).

Definition dquote : string := String "034" EmptyString.

Definition dumps_scalar (v : scalar) : string :=
  match v with
  | PInt n => Py.str_of_int n
  | PBool true => "true"
  | PBool false => "false"
  end.

Fixpoint dumps_items (d : list (string * scalar)) : string :=
  match d with
  | [] => EmptyString
  | [(k, v)] => dquote ++ k ++ dquote ++ ": " ++ dumps_scalar v
  | (k, v) :: d' =>
      dquote ++ k ++ dquote ++ ": " ++ dumps_scalar v ++ ", " ++ dumps_items d'
  end.

(** [json.dumps(d)] for a dict whose keys need no escaping, with the default
    separators. *)
Definition json_dumps (d : list (string * scalar)) : string :=
  "{" ++ dumps_items d ++ "}".

(** ** Exceptions *)

Inductive exn : Type :=
| FileNotFoundError
| PermissionError
| IsADirectoryError
| UnicodeDecodeError
| ValueError
| AttributeError
| RequestException        (* ConnectionError, Timeout, ... *)
| JSONDecodeError         (* requests.exceptions.JSONDecodeError *)
| SystemExit (code : Z).

(** [isinstance(e, Exception)]: [SystemExit] derives from [BaseException]
    only. *)
Definition is_Exception (e : exn) : bool :=
  match e with SystemExit _ => false | _ => true end.

(** [isinstance(e, requests.exceptions.RequestException)]: the error raised
    by [response.json()] derives from [InvalidJSONError], a
    [RequestException] (requests 2.27 and later). *)
Definition is_RequestException (e : exn) : bool :=
  match e with RequestException | JSONDecodeError => true | _ => false end.

(** [isinstance(e, ValueError)] *)
Definition is_ValueError (e : exn) : bool :=
  match e with
  | ValueError | UnicodeDecodeError | JSONDecodeError => true
  | _ => false
  end.

Definition is_FileNotFoundError (e : exn) : bool :=
  match e with FileNotFoundError => true | _ => false end.

(** ** The world *)

(** The objects of [app.py]. *)
Record QBittorrentAPI : Type := mkAPI {
  host : string;
  username : string;
  password : string;
  disable_auth : bool;
  logged_in : bool
}.

Record PortFileHandler : Type := mkHandler {
  port_file_path : string;
  last_port : option Z
}.

(** A path of the file system. *)
Inductive file_state : Type :=
| Missing                      (* [os.path.exists] is false *)
| Unreadable (e : exn)         (* exists; [open] or [read] raises [e] *)
| Content (s : string).        (* exists; [read] returns [s] *)

(** HTTP as [requests.Session] shows it. *)
Inductive request : Type :=
| POST (url : string) (data : list (string * string))
| GET (url : string).

Record response : Type := mkResponse {
  status_code : Z;
  text : string;
  json_body : option json      (* [None]: [response.json()] raises *)
}.

Inductive http_result : Type :=
| Failed                       (* the call raises a [RequestException] *)
| Replied (r : response).

Inductive level : Type := DEBUG | INFO | WARNING | ERROR.

(** What the program did, oldest first.  [EvSetPort] is a ghost event: it
    records that [set_port port] was called and what it returned. *)
Inductive event : Type :=
| EvRequest (rq : request) (res : http_result)
| EvSetPort (port : Z) (ok : bool)
| EvLog (lvl : level) (msg : string).

Record world : Type := mkWorld {
  qb_api : QBittorrentAPI;
  port_handler : PortFileHandler;
  fs : string -> file_state;
  server : nat -> http_result;      (* the outcome of the n-th request *)
  sent : nat;                       (* requests issued so far *)
  trace : list event
}.

Definition with_api (a : QBittorrentAPI) (w : world) : world :=
  mkWorld a (port_handler w) (fs w) (server w) (sent w) (trace w).

Definition with_handler (h : PortFileHandler) (w : world) : world :=
  mkWorld (qb_api w) h (fs w) (server w) (sent w) (trace w).

Definition with_fs (f : string -> file_state) (w : world) : world :=
  mkWorld (qb_api w) (port_handler w) f (server w) (sent w) (trace w).

Definition with_event (e : event) (w : world) : world :=
  mkWorld (qb_api w) (port_handler w) (fs w) (server w) (sent w)
          (trace w ++ [e]).

Definition with_exchange (rq : request) (w : world) : world :=
  mkWorld (qb_api w) (port_handler w) (fs w) (server w) (S (sent w))
          (trace w ++ [EvRequest rq (server w (sent w))]).

(** ** The monad: state, and exceptions that keep the state *)

Inductive result (A : Type) : Type :=
| Ret (a : A)
| Raise (e : exn).
Arguments Ret {A} a.
Arguments Raise {A} e.

Definition M (A : Type) : Type := world -> result A * world.

Definition ret {A} (a : A) : M A := fun w => (Ret a, w).

Definition bind {A B} (m : M A) (k : A -> M B) : M B :=
  fun w =>
    match m w with
    | (Ret a, w') => k a w'
    | (Raise e, w') => (Raise e, w')
    end.

Definition raise {A} (e : exn) : M A := fun w => (Raise e, w).

(** [try: m  except C as e: h e], where [catches] is [isinstance(_, C)]. *)
Definition try_except {A} (m : M A) (catches : exn -> bool) (h : exn -> M A)
  : M A :=
  fun w =>
    match m w with
    | (Ret a, w') => (Ret a, w')
    | (Raise e, w') => if catches e then h e w' else (Raise e, w')
    end.

Definition gets {A} (f : world -> A) : M A := fun w => (Ret (f w), w).
Definition modify (f : world -> world) : M unit := fun w => (Ret tt, f w).

Declare Scope py_scope.
Delimit Scope py_scope with py.
Notation "x <- m ;; k" := (bind m (fun x => k))
  (at level 100, m at next level, right associativity) : py_scope.
Notation "m ;; k" := (bind m (fun _ => k))
  (at level 100, right associativity) : py_scope.
Local Open Scope py_scope.

Definition value {A} (r : result A * world) : result A := fst r.
Definition after {A} (r : result A * world) : world := snd r.

(** ** Effects *)

(** [logger.debug], [logger.info], [logger.warning], [logger.error].  The
    message is the text of the source; where the source formats into it an
    exception or a raw JSON value, the text is kept without that value. *)
Definition log (lvl : level) (msg : string) : M unit :=
  modify (with_event (EvLog lvl msg)).

(** [self.session.post(url, data=..., timeout=10)] and
    [self.session.get(url, timeout=10)] *)
Definition session_send (rq : request) : M response :=
  fun w =>
    match server w (sent w) with
    | Failed => (Raise RequestException, with_exchange rq w)
    | Replied r => (Ret r, with_exchange rq w)
    end.

(** [response.json()] *)
Definition response_json (r : response) : M json :=
  match json_body r with
  | Some j => ret j
  | None => raise JSONDecodeError
  end.

(** [os.path.exists(path)] *)
Definition path_exists (path : string) : M bool :=
  gets (fun w => match fs w path with Missing => false | _ => true end).

(** [with open(path, 'r') as f: f.read()] *)
Definition read_file (path : string) : M string :=
  fun w =>
    match fs w path with
    | Missing => (Raise FileNotFoundError, w)
    | Unreadable e => (Raise e, w)
    | Content s => (Ret s, w)
    end.

(** [int(s)] *)
Definition py_int (s : string) : M Z :=
  match Py.int s with
  | Some n => ret n
  | None => raise ValueError
  end.

(** [prefs.get(key)]: only a dict has the method. *)
Definition prefs_get (prefs : json) (key : string) : M json :=
  match prefs with
  | JObject d => ret (dict_get d key)
  | _ => raise AttributeError
  end.

Definition set_logged_in (b : bool) : M unit :=
  modify (fun w =>
    let a := qb_api w in
    with_api (mkAPI (host a) (username a) (password a) (disable_auth a) b) w).

Definition set_last_port (p : option Z) : M unit :=
  modify (fun w =>
    with_handler (mkHandler (port_file_path (port_handler w)) p) w).

(** ** class QBittorrentAPI *)

Definition QBittorrentAPI_init (host username password : string)
    (disable_auth : bool) : QBittorrentAPI :=
  mkAPI (Py.rstrip_char "/" host) username password disable_auth false.

Definition login_url (a : QBittorrentAPI) : string :=
  host a ++ "/api/v2/auth/login".
Definition preferences_url (a : QBittorrentAPI) : string :=
  host a ++ "/api/v2/app/preferences".
Definition setPreferences_url (a : QBittorrentAPI) : string :=
  host a ++ "/api/v2/app/setPreferences".

Definition login_request (a : QBittorrentAPI) : request :=
  POST (login_url a) [("username", username a); ("password", password a)].

Definition login : M bool :=
  a <- gets qb_api ;;
  if disable_auth a then
    log INFO "Authentication disabled, skipping login" ;;
    set_logged_in true ;;
    ret true
  else
    try_except
      (response <- session_send (login_request a) ;;
       if (status_code response =? 200) && String.eqb (text response) "Ok."
       then
         set_logged_in true ;;
         log INFO "Successfully logged in to qBittorrent" ;;
         ret true
       else
         log ERROR ("Failed to login to qBittorrent: " ++ text response) ;;
         ret false)
      is_RequestException
      (fun _ => log ERROR "Error connecting to qBittorrent" ;; ret false).

(** The [try] block of [get_preferences]. *)
Definition get_preferences_request : M (option json) :=
  a <- gets qb_api ;;
  try_except
    (response <- session_send (GET (preferences_url a)) ;;
     if status_code response =? 200 then
       j <- response_json response ;;
       ret (Some j)
     else
       log ERROR ("Failed to get preferences: "
                  ++ Py.str_of_int (status_code response)) ;;
       ret None)
    is_RequestException
    (fun _ => log ERROR "Error getting preferences" ;; ret None).

Definition get_preferences : M (option json) :=
  a <- gets qb_api ;;
  if negb (logged_in a) then
    ok <- login ;;
    if negb ok then ret None else get_preferences_request
  else get_preferences_request.

(** The [preferences] dict of [set_port]. *)
Definition preferences (port : Z) : list (string * scalar) :=
  [("listen_port", PInt port); ("upnp", PBool false);
   ("random_port", PBool false)].

Definition set_port_request (a : QBittorrentAPI) (port : Z) : request :=
  POST (setPreferences_url a) [("json", json_dumps (preferences port))].

(** The [try] block of [set_port]. *)
Definition set_port_send (port : Z) : M bool :=
  a <- gets qb_api ;;
  try_except
    (response <- session_send (set_port_request a port) ;;
     if status_code response =? 200 then
       log INFO ("Successfully set qBittorrent port to "
                 ++ Py.str_of_int port) ;;
       ret true
     else
       log ERROR ("Failed to set port: "
                  ++ Py.str_of_int (status_code response)) ;;
       ret false)
    is_RequestException
    (fun _ => log ERROR "Error setting port" ;; ret false).

Definition set_port_body (port : Z) : M bool :=
  a <- gets qb_api ;;
  if negb (logged_in a) then
    ok <- login ;;
    if negb ok then ret false else set_port_send port
  else set_port_send port.

(** [set_port], with the ghost event that records the call. *)
Definition set_port (port : Z) : M bool :=
  ok <- set_port_body port ;;
  modify (with_event (EvSetPort port ok)) ;;
  ret ok.

(** ** class PortFileHandler *)

Definition PortFileHandler_init (port_file_path : string) : PortFileHandler :=
  mkHandler port_file_path None.

Definition str_of_last_port (p : option Z) : string :=
  match p with Some n => Py.str_of_int n | None => "None" end.

(** [port == self.last_port] *)
Definition port_eq_last (port : Z) (last : option Z) : bool :=
  match last with Some q => port =? q | None => false end.

Definition update_port : M unit :=
  try_except
    (path <- gets (fun w => port_file_path (port_handler w)) ;;
     ex <- path_exists path ;;
     if negb ex then
       log WARNING ("Port file " ++ path ++ " does not exist")
     else
       content <- read_file path ;;
       let port_str := Py.strip content in
       if negb (Py.truthy_str port_str) then
         last <- gets (fun w => last_port (port_handler w)) ;;
         match last with
         | Some q =>
             log WARNING ("Port file is empty but previous port was "
                          ++ Py.str_of_int q
                          ++ ". Not clearing port from qBittorrent.")
         | None => log WARNING "Port file is empty"
         end
       else
         parsed <- try_except
                     (port <- py_int port_str ;; ret (Some port))
                     is_ValueError
                     (fun _ =>
                        log ERROR ("Invalid port number in file: " ++ port_str) ;;
                        ret None) ;;
         match parsed with
         | None => ret tt
         | Some port =>
             last <- gets (fun w => last_port (port_handler w)) ;;
             if port_eq_last port last then
               log DEBUG ("Port unchanged: " ++ Py.str_of_int port)
             else
               log INFO ("Port changed from " ++ str_of_last_port last
                         ++ " to " ++ Py.str_of_int port) ;;
               ok <- set_port port ;;
               if ok then set_last_port (Some port)
               else log ERROR "Failed to update qBittorrent port"
         end)
    is_Exception
    (fun _ => log ERROR "Error reading port file").

(** A watchdog file-system event. *)
Record fs_event : Type := mkFsEvent {
  src_path : string;
  is_directory : bool
}.

Definition on_event (ev : fs_event) : M unit :=
  path <- gets (fun w => port_file_path (port_handler w)) ;;
  if String.eqb (src_path ev) path && negb (is_directory ev)
  then update_port else ret tt.

Definition on_modified : fs_event -> M unit := on_event.
Definition on_created : fs_event -> M unit := on_event.

(** ** main *)

(** The configuration read from the environment. *)
Record config : Type := mkConfig {
  QB_HOST : string;
  QB_USERNAME : string;
  QB_PASSWORD : string;
  QB_DISABLE_AUTH : bool;
  PORT_FILE : string
}.

(** The initial port check of [main] (the [if os.path.exists(PORT_FILE)]
    statement). *)
Definition initial_port_check (cfg : config) : M unit :=
  ex <- path_exists (PORT_FILE cfg) ;;
  if ex then
    log INFO "Checking initial port configuration" ;;
    try_except
      (content <- read_file (PORT_FILE cfg) ;;
       let file_port_str := Py.strip content in
       if Py.truthy_str file_port_str then
         file_port <- py_int file_port_str ;;
         prefs <- get_preferences ;;
         match prefs with
         | Some prefs =>
             if json_truthy prefs then
               current_port <- prefs_get prefs "listen_port" ;;
               if json_eq_int current_port file_port then
                 log INFO ("Port already correctly set to "
                           ++ Py.str_of_int file_port ++ ", no update needed") ;;
                 set_last_port (Some file_port)
               else
                 log INFO "Port mismatch. Updating..." ;;
                 update_port
             else
               log WARNING "Could not read current qBittorrent preferences, performing update anyway" ;;
               update_port
         | None =>
             log WARNING "Could not read current qBittorrent preferences, performing update anyway" ;;
             update_port
         end
       else log WARNING "Port file is empty")
      (fun e => is_ValueError e || is_FileNotFoundError e)
      (fun _ => log ERROR "Error reading port file during initial check")
  else
    log WARNING ("Port file " ++ PORT_FILE cfg
                 ++ " does not exist yet. Waiting for it to be created.").

(** [main] up to the start of the file watcher. *)
Definition main_startup (cfg : config) : M unit :=
  log INFO "Starting PIA qBittorrent Port Helper" ;;
  log INFO ("qBittorrent Host: " ++ QB_HOST cfg) ;;
  log INFO ("Authentication: "
            ++ if QB_DISABLE_AUTH cfg then "Disabled" else "Enabled") ;;
  log INFO ("Port File: " ++ PORT_FILE cfg) ;;
  modify (with_api (QBittorrentAPI_init (QB_HOST cfg) (QB_USERNAME cfg)
                      (QB_PASSWORD cfg) (QB_DISABLE_AUTH cfg))) ;;
  ok <- login ;;
  if negb ok then
    log ERROR "Failed to connect to qBittorrent. Exiting." ;;
    raise (SystemExit 1)
  else
    modify (with_handler (PortFileHandler_init (PORT_FILE cfg))) ;;
    initial_port_check cfg.

(** One round of the [while True] loop of [main], after the sleep. *)
Definition health_check : M unit :=
  prefs <- get_preferences ;;
  match prefs with
  | None =>
      log WARNING "Lost connection to qBittorrent, attempting to reconnect..." ;;
      set_logged_in false ;;
      ok <- login ;;
      if negb ok then log ERROR "Failed to reconnect to qBittorrent"
      else ret tt
  | Some prefs =>
      _ <- prefs_get prefs "listen_port" ;;
      log DEBUG "Current qBittorrent listening port"
  end.

(** ** The running system *)

(** What happens once the handler exists: the initial port check of
    start-up, then the watcher delivers an event, the timer fires, or
    something outside the program rewrites the file system.  Each operation
    runs to its end before the next one starts. *)
Inductive operation : Type :=
| InitialPortCheck (cfg : config)
| OnModified (ev : fs_event)
| OnCreated (ev : fs_event)
| HealthCheck
| Outside (f : string -> file_state).

Definition run_operation (o : operation) : M unit :=
  match o with
  | InitialPortCheck cfg => initial_port_check cfg
  | OnModified ev => on_modified ev
  | OnCreated ev => on_created ev
  | HealthCheck => health_check
  | Outside f => modify (with_fs f)
  end.

Fixpoint run_operations (os : list operation) : M unit :=
  match os with
  | [] => ret tt
  | o :: os' => run_operation o ;; run_operations os'
  end.

(** ** Observations on the trace *)

Definition is_set_port_call (e : event) : bool :=
  match e with EvSetPort _ _ => true | _ => false end.

Definition is_post_to (url : string) (e : event) : bool :=
  match e with
  | EvRequest (POST u _) _ => String.eqb u url
  | _ => false
  end.

(** The calls of [set_port] in a trace. *)
Definition set_port_calls (t : list event) : list event :=
  filter is_set_port_call t.

(** The write requests ([POST .../api/v2/app/setPreferences]) in a trace. *)
Definition write_requests (a : QBittorrentAPI) (t : list event) : list event :=
  filter (is_post_to (setPreferences_url a)) t.

Definition last_applied_port (w : world) : option Z :=
  last_port (port_handler w).

(** The events added to the trace between [w] and a later world [w']. *)
Definition new_events (w w' : world) : list event :=
  skipn (length (trace w)) (trace w').

(** Symbolic runs of the program keep the string functions folded. *)
#[local] Arguments Py.strip : simpl never.
#[local] Arguments Py.int : simpl never.
#[local] Arguments Py.str_of_int : simpl never.
#[local] Arguments Py.rstrip_char : simpl never.
#[local] Arguments json_dumps : simpl never.
#[local] Arguments String.append : simpl never.
#[local] Arguments String.eqb : simpl never.
#[local] Arguments Z.eqb : simpl never.
#[local] Arguments login : simpl never.
#[local] Arguments get_preferences : simpl never.
#[local] Arguments get_preferences_request : simpl never.
#[local] Arguments set_port_send : simpl never.
#[local] Arguments set_port_body : simpl never.
#[local] Arguments set_port : simpl never.
#[local] Arguments update_port : simpl never.
#[local] Arguments initial_port_check : simpl never.
#[local] Arguments health_check : simpl never.

(** ** Specification vocabulary *)

(** No call of [set_port] and no write request in a list of events. *)
Definition quiet (a : QBittorrentAPI) (d : list event) : Prop :=
  set_port_calls d = [] /\ write_requests a d = [].

(** [w'] comes from [w] by a run of API methods that added the events [d]:
    the handler, the environment and the client's configuration are as
    before. *)
Record api_run (w w' : world) (d : list event) : Prop := mkApiRun {
  run_handler : port_handler w' = port_handler w;
  run_fs : fs w' = fs w;
  run_server : server w' = server w;
  run_host : host (qb_api w') = host (qb_api w);
  run_username : username (qb_api w') = username (qb_api w);
  run_password : password (qb_api w') = password (qb_api w);
  run_disable_auth : disable_auth (qb_api w') = disable_auth (qb_api w);
  run_trace : trace w' = (trace w ++ d)%list
}.

(** What [get_preferences] returns for a reply, once logged in. *)
Definition preferences_of (res : http_result) : option json :=
  match res with
  | Failed => None
  | Replied r => if status_code r =? 200 then json_body r else None
  end.

(** The preferences report [listen_port] equal to [p]. *)
Definition reports_port (prefs : option json) (p : Z) : bool :=
  match prefs with
  | Some (JObject d) => json_eq_int (dict_get d "listen_port") p
  | _ => false
  end.

(** The preferences could not be read, or report a [listen_port] other than
    [p]. *)
Definition unread_or_differs (prefs : option json) (p : Z) : bool :=
  match prefs with
  | None => true
  | Some (JObject d) => negb (json_eq_int (dict_get d "listen_port") p)
  | Some j => negb (json_truthy j)
  end.

(** The [except (ValueError, FileNotFoundError)] clause of the initial port
    check, applied to the outcome of the guarded block. *)
Definition startup_except (r : result unit * world) : result unit * world :=
  match r with
  | (Raise e, w') =>
      if is_ValueError e || is_FileNotFoundError e
      then (Ret tt,
            with_event
              (EvLog ERROR "Error reading port file during initial check") w')
      else (Raise e, w')
  | (Ret _, _) => r
  end.

(** The two ways in which [last_port] comes to hold [p] between [w] and
    [w']: a call of [set_port p] has just returned success, or the initial
    port check found that the service already reports [p]. *)
Definition confirmed_by_push (w' : world) (p : Z) : Prop :=
  exists t, trace w' = (t ++ [EvSetPort p true])%list.

Definition found_at_startup (o : operation) (w w' : world) (p : Z) : Prop :=
  exists cfg s r d,
    o = InitialPortCheck cfg /\
    fs w (PORT_FILE cfg) = Content s /\
    Py.int (Py.strip s) = Some p /\
    In (EvRequest (GET (preferences_url (qb_api w))) (Replied r))
       (new_events w w') /\
    status_code r = 200 /\
    json_body r = Some (JObject d) /\
    json_eq_int (dict_get d "listen_port") p = true /\
    set_port_calls (new_events w w') = [].

(** The first lines that [main] logs. *)
Definition startup_banner (cfg : config) : list event :=
  [EvLog INFO "Starting PIA qBittorrent Port Helper";
   EvLog INFO ("qBittorrent Host: " ++ QB_HOST cfg);
   EvLog INFO ("Authentication: "
               ++ if QB_DISABLE_AUTH cfg then "Disabled" else "Enabled");
   EvLog INFO ("Port File: " ++ PORT_FILE cfg)].

(** The world in which [main] makes its first login: the banner is logged
    and the client has just been built. *)
Definition before_login (cfg : config) (w : world) : world :=
  with_api (QBittorrentAPI_init (QB_HOST cfg) (QB_USERNAME cfg)
              (QB_PASSWORD cfg) (QB_DISABLE_AUTH cfg))
    (fold_left (fun w e => with_event e w) (startup_banner cfg) w).

(** ** Sample worlds *)

Definition sample_config : config :=
  mkConfig "http://localhost:8080/" "admin" "adminadmin" false "/app/port.dat".

(** A file system with one file. *)
Definition one_file (path content : string) : string -> file_state :=
  fun p => if String.eqb p path then Content content else Missing.

(** A server that gives the listed outcomes in turn, then fails. *)
Definition replies (l : list http_result) : nat -> http_result :=
  fun n => nth n l Failed.

Definition reply (status : Z) (body : string) (j : option json)
  : http_result :=
  Replied (mkResponse status body j).

(** The world of a running process: the client of [sample_config] with the
    given login flag, the handler with the given last port, the port file
    with the given content. *)
Definition sample_world (li : bool) (last : option Z) (content : string)
    (l : list http_result) : world :=
  mkWorld (mkAPI "http://localhost:8080" "admin" "adminadmin" false li)
          (mkHandler "/app/port.dat" last)
          (one_file "/app/port.dat" content)
          (replies l) 0 [].

(** The world in which the process starts: no object built yet. *)
Definition boot_world (content : string) (l : list http_result) : world :=
  mkWorld (mkAPI EmptyString EmptyString EmptyString false false) (mkHandler EmptyString None)
          (one_file "/app/port.dat" content) (replies l) 0 [].

(** ** Tactics for symbolic runs *)

Ltac unfold_monad :=
  unfold session_send, response_json, path_exists, read_file, py_int,
    prefs_get, set_logged_in, set_last_port, log, try_except, bind, ret,
    raise, gets, modify, value, after, last_applied_port in *.

Ltac use_hyps :=
  cbn;
  repeat (progress (repeat match goal with
                           | H : ?l = _ |- context [?l] => rewrite H
                           end); cbn).

Ltac split_world w :=
  let h := fresh "h" in let u := fresh "u" in let pw := fresh "pw" in
  let da := fresh "da" in let li := fresh "li" in let hd := fresh "hd" in
  let f := fresh "f" in let srv := fresh "srv" in let n := fresh "n" in
  let tr := fresh "tr" in
  destruct w as [[h u pw da li] hd f srv n tr].

Ltac solve_trace := cbn; rewrite <- ?app_assoc; reflexivity.

(** Rewriting rules that decide the comparison of two URLs of the API. *)
Create Rewrite HintDb urls.

Ltac solve_quiet :=
  unfold set_port_calls, write_requests, login_request, set_port_request,
    setPreferences_url, login_url, preferences_url;
  cbn; autorewrite with urls; reflexivity.

(** ** Vocabulary and tactics for the further properties *)

(** The requests in a trace, oldest first. *)
Definition requests_in (t : list event) : list request :=
  flat_map (fun e => match e with EvRequest rq _ => [rq] | _ => [] end) t.

(** The reply lets [login] succeed. *)
Definition login_ok (res : http_result) : bool :=
  match res with
  | Failed => false
  | Replied r => (status_code r =? 200) && String.eqb (text r) "Ok."
  end.

(** The reply lets [set_port] succeed. *)
Definition write_ok (res : http_result) : bool :=
  match res with
  | Failed => false
  | Replied r => status_code r =? 200
  end.

(** Every character of a string is white space, or none is. *)
Definition is_blank (s : string) : bool :=
  forallb Py.isspace (list_ascii_of_string s).

Definition no_blank (s : string) : bool :=
  forallb (fun c => negb (Py.isspace c)) (list_ascii_of_string s).

(** Rewriting rules that bring a trace into the form [old ++ new]. *)
Create Rewrite HintDb traces.

Ltac run_api :=
  unfold get_preferences, get_preferences_request, set_port, set_port_body,
    set_port_send, login, new_events, login_ok, write_ok, preferences_of;
  unfold_monad; cbn.

Ltac case_reply :=
  match goal with
  | |- context [match ?srv ?k with Failed => _ | Replied _ => _ end] =>
      destruct (srv k) eqn:?; cbn
  end.

Ltac case_status :=
  match goal with
  | |- context [if (status_code ?r =? 200) && String.eqb (text ?r) ?t
                then _ else _] =>
      destruct ((status_code r =? 200) && String.eqb (text r) t) eqn:?; cbn
  | |- context [if status_code ?r =? 200 then _ else _] =>
      destruct (status_code r =? 200) eqn:?; cbn
  | |- context [match json_body ?r with Some _ => _ | None => _ end] =>
      destruct (json_body r) as [[] |] eqn:?; cbn
  end.

Ltac tidy_trace :=
  cbn;
  repeat match goal with
         | H : ?s ?k = _ |- context [?s ?k] => rewrite H
         end;
  autorewrite with traces; cbn.

(** * Properties *)

(** ** Lists and strings *)

Lemma skipn_length_app {A} (l d : list A) : skipn (length l) (l ++ d) = d.
Proof. induction l as [| x l IH]; simpl; auto. Qed.

Lemma new_events_app (w w' : world) (d : list event) :
  trace w' = (trace w ++ d)%list -> new_events w w' = d.
Proof. intros H. unfold new_events. rewrite H. apply skipn_length_app. Qed.

Lemma append_eqb_prefix (h a b : string) :
  String.eqb (h ++ a) (h ++ b) = String.eqb a b.
Proof.
  induction h as [| c h IH]; [reflexivity |].
  change (String.eqb (String c (h ++ a)) (String c (h ++ b)) = String.eqb a b).
  change ((if Ascii.eqb c c then String.eqb (h ++ a) (h ++ b) else false)
          = String.eqb a b).
  rewrite Ascii.eqb_refl. exact IH.
Qed.

#[local] Hint Rewrite append_eqb_prefix String.eqb_refl : urls.

Lemma int_strip_nonempty (s : string) (p : Z) :
  Py.int (Py.strip s) = Some p -> Py.truthy_str (Py.strip s) = true.
Proof. destruct (Py.strip s); [discriminate | reflexivity]. Qed.

Lemma port_eq_last_true (p : Z) (last : option Z) :
  port_eq_last p last = true <-> last = Some p.
Proof.
  destruct last as [q |]; simpl; [| split; discriminate].
  rewrite Z.eqb_eq. split; [intros -> | intros [= ->]]; reflexivity.
Qed.

Lemma port_eq_last_false (p : Z) (last : option Z) :
  port_eq_last p last = false <-> last <> Some p.
Proof.
  rewrite <- port_eq_last_true. destruct (port_eq_last p last); split;
    congruence.
Qed.

Lemma quiet_nil (a : QBittorrentAPI) : quiet a [].
Proof. split; reflexivity. Qed.

Lemma quiet_app (a : QBittorrentAPI) (d1 d2 : list event) :
  quiet a d1 -> quiet a d2 -> quiet a (d1 ++ d2).
Proof.
  unfold quiet, set_port_calls, write_requests.
  intros [H1 H2] [H3 H4]. rewrite !filter_app, H1, H2, H3, H4. auto.
Qed.

Lemma quiet_log (a : QBittorrentAPI) (lvl : level) (msg : string) :
  quiet a [EvLog lvl msg].
Proof. split; reflexivity. Qed.

Lemma quiet_same_host (a a' : QBittorrentAPI) (d : list event) :
  host a' = host a -> quiet a d -> quiet a' d.
Proof.
  unfold quiet, write_requests, setPreferences_url. intros ->. auto.
Qed.

Lemma api_run_refl (w : world) : api_run w w [].
Proof. constructor; auto using app_nil_r. Qed.

Lemma api_run_trans (w1 w2 w3 : world) (d1 d2 : list event) :
  api_run w1 w2 d1 -> api_run w2 w3 d2 -> api_run w1 w3 (d1 ++ d2).
Proof.
  intros [] []. constructor; try congruence.
  rewrite app_assoc. congruence.
Qed.

Lemma api_run_log (w : world) (lvl : level) (msg : string) :
  api_run w (with_event (EvLog lvl msg) w) [EvLog lvl msg].
Proof. constructor; reflexivity. Qed.

(** ** login *)

(** [login] never raises; on success the client is logged in, on failure the
    flag is as it was. *)
Lemma login_run (w : world) :
  exists b d,
    value (login w) = Ret b /\
    api_run w (after (login w)) d /\
    quiet (qb_api w) d /\
    logged_in (qb_api (after (login w))) = (b || logged_in (qb_api w))%bool.
Proof.
  split_world w. unfold login. unfold_monad. cbn.
  destruct da; cbn; [| destruct (srv n) as [| r]; cbn;
    [| destruct ((status_code r =? 200) && String.eqb (text r) "Ok."); cbn]].
  all: eexists; eexists; repeat split; try solve_trace; try solve_quiet.
Qed.

Lemma login_cases (w : world) :
  disable_auth (qb_api w) = false ->
  value (login w) =
    Ret (match server w (sent w) with
         | Failed => false
         | Replied r => (status_code r =? 200) && String.eqb (text r) "Ok."
         end) /\
  new_events w (after (login w)) =
    EvRequest (login_request (qb_api w)) (server w (sent w))
    :: match value (login w) with
       | Ret true => [EvLog INFO "Successfully logged in to qBittorrent"]
       | _ => match server w (sent w) with
              | Failed => [EvLog ERROR "Error connecting to qBittorrent"]
              | Replied r =>
                  [EvLog ERROR ("Failed to login to qBittorrent: " ++ text r)]
              end
       end.
Proof.
  split_world w. cbn. intros ->. unfold login, new_events. unfold_monad. cbn.
  destruct (srv n) as [| r] eqn:E; cbn.
  - split; [reflexivity |]. rewrite <- app_assoc, skipn_length_app, E.
    reflexivity.
  - destruct ((status_code r =? 200) && String.eqb (text r) "Ok."); cbn;
      (split; [reflexivity |]); rewrite <- app_assoc, skipn_length_app, E;
      reflexivity.
Qed.

(** ** set_port *)

Lemma set_port_send_run (port : Z) (w : world) :
  exists b d,
    value (set_port_send port w) = Ret b /\
    api_run w (after (set_port_send port w)) d /\
    set_port_calls d = [] /\
    write_requests (qb_api w) d =
      [EvRequest (set_port_request (qb_api w) port) (server w (sent w))] /\
    qb_api (after (set_port_send port w)) = qb_api w /\
    b = match server w (sent w) with
        | Failed => false
        | Replied r => status_code r =? 200
        end.
Proof.
  split_world w. unfold set_port_send. unfold_monad. cbn.
  destruct (srv n) as [| r] eqn:E; cbn;
    [| destruct (status_code r =? 200); cbn].
  all: eexists; eexists; repeat split; try solve_trace; try solve_quiet.
  all: unfold write_requests, set_port_request, setPreferences_url; cbn;
    rewrite String.eqb_refl, ?E; reflexivity.
Qed.

Lemma set_port_body_eq (port : Z) (w : world) :
  set_port_body port w =
    if logged_in (qb_api w) then set_port_send port w
    else match login w with
         | (Ret true, w1) => set_port_send port w1
         | (Ret false, w1) => (Ret false, w1)
         | (Raise e, w1) => (Raise e, w1)
         end.
Proof.
  unfold set_port_body, bind, gets, ret. cbv beta iota.
  destruct (logged_in (qb_api w)); cbv beta iota delta [negb];
    [reflexivity |].
  destruct (login w) as [[[] |] w1]; reflexivity.
Qed.

(** [set_port_body] never raises and issues at most one write request. *)
Lemma set_port_body_run (port : Z) (w : world) :
  exists b d,
    value (set_port_body port w) = Ret b /\
    api_run w (after (set_port_body port w)) d /\
    set_port_calls d = [] /\
    (write_requests (qb_api w) d = [] \/
     exists res,
       write_requests (qb_api w) d =
         [EvRequest (set_port_request (qb_api w) port) res]).
Proof.
  rewrite set_port_body_eq.
  destruct (logged_in (qb_api w)) eqn:Eli.
  - destruct (set_port_send_run port w) as (b & d & Hv & Hr & Hc & Hw & _).
    exists b, d. eauto 10.
  - destruct (login_run w) as (b & d & Hv & Hr & [Hc Hw] & Hli).
    destruct (login w) as [r w1] eqn:El. cbn in Hv, Hr, Hli. subst r.
    destruct b.
    + destruct (set_port_send_run port w1)
        as (b' & d' & Hv' & Hr' & Hc' & Hw' & _).
      exists b', (d ++ d')%list. split; [| split; [| split]].
      * exact Hv'.
      * exact (api_run_trans _ _ _ _ _ Hr Hr').
      * unfold set_port_calls in *. rewrite filter_app, Hc, Hc'. reflexivity.
      * right. exists (server w1 (sent w1)).
        unfold write_requests, set_port_request, setPreferences_url in *.
        destruct Hr as [_ _ _ Hh _ _ _ _]. rewrite Hh in Hw'.
        rewrite filter_app, Hw, Hw'. reflexivity.
    + exists false, d. cbn. auto.
Qed.

Lemma set_port_eq (port : Z) (w : world) :
  set_port port w =
    match set_port_body port w with
    | (Ret ok, w1) => (Ret ok, with_event (EvSetPort port ok) w1)
    | (Raise e, w1) => (Raise e, w1)
    end.
Proof.
  unfold set_port, bind, modify, ret. cbv beta iota.
  destruct (set_port_body port w) as [[ok |] w1]; reflexivity.
Qed.

(** Once logged in, [set_port] issues its write request at once. *)
Lemma set_port_logged_in (port : Z) (w : world) :
  logged_in (qb_api w) = true ->
  exists d w1,
    set_port port w =
      (Ret (match server w (sent w) with
            | Failed => false
            | Replied r => status_code r =? 200
            end),
       with_event (EvSetPort port
                     (match server w (sent w) with
                      | Failed => false
                      | Replied r => status_code r =? 200
                      end)) w1) /\
    api_run w w1 d /\
    set_port_calls d = [] /\
    write_requests (qb_api w) d =
      [EvRequest (set_port_request (qb_api w) port) (server w (sent w))] /\
    qb_api w1 = qb_api w.
Proof.
  intros Hli. rewrite set_port_eq, set_port_body_eq, Hli.
  destruct (set_port_send_run port w) as (b & d & Hv & Hr & Hc & Hw & Ha & Hb).
  destruct (set_port_send port w) as [r w1]. cbn in Hv, Hr, Ha. subst r.
  exists d, w1. rewrite <- Hb. auto.
Qed.

(** [set_port] never raises; the ghost event is the last one it adds. *)
Lemma set_port_run (port : Z) (w : world) :
  exists b d w1,
    set_port port w = (Ret b, with_event (EvSetPort port b) w1) /\
    api_run w w1 d /\
    set_port_calls d = [] /\
    (write_requests (qb_api w) d = [] \/
     exists res,
       write_requests (qb_api w) d =
         [EvRequest (set_port_request (qb_api w) port) res]) /\
    (logged_in (qb_api w) = true ->
     write_requests (qb_api w) d =
       [EvRequest (set_port_request (qb_api w) port) (server w (sent w))]).
Proof.
  destruct (logged_in (qb_api w)) eqn:Eli.
  - destruct (set_port_logged_in port w Eli) as (d & w1 & He & Hr & Hc & Hw & _).
    eauto 12.
  - rewrite set_port_eq.
    destruct (set_port_body_run port w) as (b & d & Hv & Hr & Hc & Hw).
    destruct (set_port_body port w) as [r w1]. cbn in Hv, Hr. subst r.
    exists b, d, w1.
    split; [reflexivity | split; [exact Hr | split; [exact Hc |]]].
    split; [exact Hw | discriminate].
Qed.

(** ** get_preferences *)

Lemma get_preferences_request_run (w : world) :
  exists d,
    value (get_preferences_request w)
      = Ret (preferences_of (server w (sent w))) /\
    api_run w (after (get_preferences_request w)) d /\
    quiet (qb_api w) d /\
    qb_api (after (get_preferences_request w)) = qb_api w /\
    In (EvRequest (GET (preferences_url (qb_api w))) (server w (sent w))) d.
Proof.
  split_world w. unfold get_preferences_request. unfold_monad. cbn.
  destruct (srv n) as [| r] eqn:E; cbn;
    [| destruct (status_code r =? 200); cbn;
       [destruct (json_body r); cbn |]].
  all: eexists; repeat split; try solve_trace; try solve_quiet.
  all: cbn; rewrite ?E; cbn; auto.
Qed.

Lemma get_preferences_eq (w : world) :
  get_preferences w =
    if logged_in (qb_api w) then get_preferences_request w
    else match login w with
         | (Ret true, w1) => get_preferences_request w1
         | (Ret false, w1) => (Ret None, w1)
         | (Raise e, w1) => (Raise e, w1)
         end.
Proof.
  unfold get_preferences, bind, gets, ret. cbv beta iota.
  destruct (logged_in (qb_api w)); cbv beta iota delta [negb];
    [reflexivity |].
  destruct (login w) as [[[] |] w1]; reflexivity.
Qed.

Lemma preferences_of_some (res : http_result) (j : json) :
  preferences_of res = Some j ->
  exists r, res = Replied r /\ status_code r = 200 /\ json_body r = Some j.
Proof.
  destruct res as [| r]; cbn; [discriminate |].
  destruct (status_code r =? 200) eqn:E; [| discriminate].
  apply Z.eqb_eq in E. eauto.
Qed.

(** [get_preferences] never raises and makes no write; what it returns was
    the body of a reply with status 200 to its read request. *)
Lemma get_preferences_run (w : world) :
  exists r d,
    value (get_preferences w) = Ret r /\
    api_run w (after (get_preferences w)) d /\
    quiet (qb_api w) d /\
    (forall j, r = Some j ->
       exists rp,
         In (EvRequest (GET (preferences_url (qb_api w))) (Replied rp)) d /\
         status_code rp = 200 /\ json_body rp = Some j).
Proof.
  rewrite get_preferences_eq.
  destruct (logged_in (qb_api w)) eqn:Eli.
  - destruct (get_preferences_request_run w) as (d & Hv & Hr & Hq & _ & Hin).
    exists (preferences_of (server w (sent w))), d.
    split; [exact Hv | split; [exact Hr | split; [exact Hq |]]].
    intros j Hj. apply preferences_of_some in Hj.
    destruct Hj as (rp & Hrp & H200 & Hb). rewrite Hrp in Hin. eauto.
  - destruct (login_run w) as (b & d & Hv & Hr & Hq & Hli).
    destruct (login w) as [r w1] eqn:El. cbn in Hv, Hr, Hli. subst r.
    destruct b.
    + destruct (get_preferences_request_run w1)
        as (d' & Hv' & Hr' & Hq' & _ & Hin).
      exists (preferences_of (server w1 (sent w1))), (d ++ d')%list.
      split; [exact Hv' | split; [| split]].
      * exact (api_run_trans _ _ _ _ _ Hr Hr').
      * apply quiet_app; [exact Hq |].
        apply (quiet_same_host (qb_api w1)); [| exact Hq'].
        symmetry. apply Hr.
      * intros j Hj. apply preferences_of_some in Hj.
        destruct Hj as (rp & Hrp & H200 & Hb). rewrite Hrp in Hin.
        exists rp. split; [| auto]. apply in_or_app. right.
        unfold preferences_url in *. rewrite <- (run_host _ _ _ Hr).
        exact Hin.
    + exists None, d. cbn. repeat split; try apply Hr; try apply Hq.
      discriminate.
Qed.

(** ** update_port *)

(** [update_port], with the monad unfolded down to the call of [set_port]. *)
Lemma update_port_eq (w : world) :
  update_port w =
    let path := port_file_path (port_handler w) in
    let last := last_port (port_handler w) in
    match fs w path with
    | Missing =>
        (Ret tt,
         with_event (EvLog WARNING ("Port file " ++ path ++ " does not exist"))
           w)
    | Unreadable e =>
        if is_Exception e
        then (Ret tt, with_event (EvLog ERROR "Error reading port file") w)
        else (Raise e, w)
    | Content s =>
        if Py.truthy_str (Py.strip s) then
          match Py.int (Py.strip s) with
          | None =>
              (Ret tt,
               with_event
                 (EvLog ERROR ("Invalid port number in file: " ++ Py.strip s))
                 w)
          | Some port =>
              if port_eq_last port last then
                (Ret tt,
                 with_event
                   (EvLog DEBUG ("Port unchanged: " ++ Py.str_of_int port)) w)
              else
                match
                  set_port port
                    (with_event
                       (EvLog INFO ("Port changed from "
                                    ++ str_of_last_port last ++ " to "
                                    ++ Py.str_of_int port)) w)
                with
                | (Ret true, w2) =>
                    (Ret tt,
                     with_handler
                       (mkHandler (port_file_path (port_handler w2))
                          (Some port)) w2)
                | (Ret false, w2) =>
                    (Ret tt,
                     with_event
                       (EvLog ERROR "Failed to update qBittorrent port") w2)
                | (Raise e, w2) =>
                    if is_Exception e
                    then (Ret tt,
                          with_event (EvLog ERROR "Error reading port file") w2)
                    else (Raise e, w2)
                end
          end
        else
          (Ret tt,
           with_event
             (EvLog WARNING
                match last with
                | Some q =>
                    "Port file is empty but previous port was "
                    ++ Py.str_of_int q
                    ++ ". Not clearing port from qBittorrent."
                | None => "Port file is empty"
                end) w)
    end.
Proof.
  unfold update_port. unfold_monad. cbn.
  destruct (fs w (port_file_path (port_handler w))) as [| e | s] eqn:Ef;
    use_hyps; [reflexivity | reflexivity |].
  destruct (Py.truthy_str (Py.strip s)) eqn:Et; use_hyps.
  - destruct (Py.int (Py.strip s)) as [port |] eqn:Ei; use_hyps;
      [| reflexivity].
    destruct (port_eq_last port (last_port (port_handler w))) eqn:El;
      use_hyps; [reflexivity |].
    match goal with
    | |- context [set_port port ?w1] =>
        destruct (set_port port w1) as [[[] |] w2]; reflexivity
    end.
  - destruct (last_port (port_handler w)); reflexivity.
Qed.

(** The file system, the server and the handler's path are as before after
    [update_port]; the trace has grown. *)
Lemma update_port_frame (w : world) :
  let w' := after (update_port w) in
  fs w' = fs w /\ server w' = server w /\
  port_file_path (port_handler w') = port_file_path (port_handler w) /\
  host (qb_api w') = host (qb_api w) /\
  exists d, trace w' = (trace w ++ d)%list.
Proof.
  cbn zeta. rewrite update_port_eq. cbn zeta.
  destruct (fs w _) as [| e | s];
    [ | destruct (is_Exception e) | destruct (Py.truthy_str (Py.strip s));
        [destruct (Py.int (Py.strip s)) as [port |];
         [destruct (port_eq_last port _) |] |] ];
    try (cbn; repeat split; try (eexists; reflexivity);
         exists []; symmetry; apply app_nil_r).
  match goal with
  | |- context [set_port port ?w1] =>
      destruct (set_port_run port w1) as (b & d & w2 & -> & Hr & _)
  end.
  destruct Hr. cbn in *.
  destruct b; cbn; repeat split; try congruence; eexists;
    rewrite run_trace0, <- !app_assoc; reflexivity.
Qed.

(** The handler after [update_port]: as before, or holding a port that
    [set_port] has just confirmed. *)
Lemma update_port_handler (w : world) :
  let w' := after (update_port w) in
  port_handler w' = port_handler w \/
  exists p t,
    value (update_port w) = Ret tt /\
    last_port (port_handler w) <> Some p /\
    port_handler w' = mkHandler (port_file_path (port_handler w)) (Some p) /\
    trace w' = (t ++ [EvSetPort p true])%list.
Proof.
  cbn zeta. rewrite update_port_eq. cbn zeta.
  destruct (fs w _) as [| e | s];
    [ | destruct (is_Exception e) | destruct (Py.truthy_str (Py.strip s));
        [destruct (Py.int (Py.strip s)) as [port |];
         [destruct (port_eq_last port _) eqn:Eq |] |] ];
    try (left; reflexivity).
  match goal with
  | |- context [set_port port ?w1] =>
      destruct (set_port_run port w1) as (b & d & w2 & -> & Hr & _)
  end.
  destruct Hr. cbn in *. destruct b; cbn.
  - right. exists port. eexists. split; [reflexivity | split; [| split]].
    + apply port_eq_last_false. exact Eq.
    + rewrite run_handler0. reflexivity.
    + reflexivity.
  - left. assumption.
Qed.

Lemma no_set_port_call_in (d : list event) (p : Z) (b : bool) :
  set_port_calls d = [] -> ~ In (EvSetPort p b) d.
Proof.
  intros H Hin.
  assert (Hf : In (EvSetPort p b) (set_port_calls d))
    by (apply filter_In; split; [exact Hin | reflexivity]).
  rewrite H in Hf. exact Hf.
Qed.

(** A value that is not the last applied one is pushed: [set_port] is called
    once, and [last_port] follows its result. *)
Lemma update_port_push (w : world) (s : string) (p : Z) :
  fs w (port_file_path (port_handler w)) = Content s ->
  Py.int (Py.strip s) = Some p ->
  last_applied_port w <> Some p ->
  exists b d msg,
    value (update_port w) = Ret tt /\
    set_port_calls d = [] /\
    (write_requests (qb_api w) d = [] \/
     exists res,
       write_requests (qb_api w) d =
         [EvRequest (set_port_request (qb_api w) p) res]) /\
    (logged_in (qb_api w) = true ->
     write_requests (qb_api w) d =
       [EvRequest (set_port_request (qb_api w) p) (server w (sent w))]) /\
    new_events w (after (update_port w)) =
      (EvLog INFO msg :: d ++ EvSetPort p b
         :: (if b then []
             else [EvLog ERROR "Failed to update qBittorrent port"]))%list /\
    port_handler (after (update_port w)) =
      (if b then mkHandler (port_file_path (port_handler w)) (Some p)
       else port_handler w).
Proof.
  intros Hf Hi Hl. rewrite update_port_eq. cbn zeta.
  rewrite Hf, (int_strip_nonempty _ _ Hi), Hi.
  apply port_eq_last_false in Hl. unfold last_applied_port in Hl. rewrite Hl.
  match goal with
  | |- context [set_port p (with_event (EvLog INFO ?m) w)] =>
      destruct (set_port_run p (with_event (EvLog INFO m) w))
        as (b & d & w2 & -> & Hr & Hc & Hw & Hw'); exists b, d, m
  end.
  destruct Hr. cbn in *.
  assert (Ht : forall tl, (((trace w ++ [EvLog INFO
            ("Port changed from " ++ str_of_last_port
               (last_port (port_handler w)) ++ " to " ++ Py.str_of_int p)])
            ++ d) ++ tl = trace w ++ EvLog INFO
            ("Port changed from " ++ str_of_last_port
               (last_port (port_handler w)) ++ " to " ++ Py.str_of_int p)
            :: d ++ tl)%list)
    by (intros tl; rewrite <- !app_assoc; reflexivity).
  destruct b; cbn; repeat split; auto.
  - apply new_events_app. cbn. rewrite run_trace0. apply Ht.
  - rewrite run_handler0. reflexivity.
  - apply new_events_app. cbn. rewrite run_trace0, <- app_assoc. apply Ht.
Qed.

(** A value equal to the last applied one: one debug line, nothing else. *)
Lemma update_port_unchanged (w : world) (s : string) (p : Z) :
  fs w (port_file_path (port_handler w)) = Content s ->
  Py.int (Py.strip s) = Some p ->
  last_applied_port w = Some p ->
  update_port w =
    (Ret tt,
     with_event (EvLog DEBUG ("Port unchanged: " ++ Py.str_of_int p)) w).
Proof.
  intros Hf Hi Hl. rewrite update_port_eq. cbn zeta.
  rewrite Hf, (int_strip_nonempty _ _ Hi), Hi.
  apply port_eq_last_true in Hl. unfold last_applied_port in Hl. rewrite Hl.
  reflexivity.
Qed.

(** C1: when the trimmed content of the port file is empty and
    [last_applied_port] holds [p], [update_port] calls [set_port] not at all,
    sends no request, and [last_applied_port] still holds [p]: the run adds
    one warning to the log and nothing else. *)
Theorem update_port_empty_file_keeps_port (w : world) (s : string) (p : Z) :
  fs w (port_file_path (port_handler w)) = Content s ->
  Py.strip s = EmptyString ->
  last_applied_port w = Some p ->
  let w' := after (update_port w) in
  value (update_port w) = Ret tt /\
  last_applied_port w' = Some p /\
  set_port_calls (new_events w w') = [] /\
  sent w' = sent w /\
  qb_api w' = qb_api w /\
  exists msg, new_events w w' = [EvLog WARNING msg].
Proof.
  intros Hf Hs Hl. cbn zeta. rewrite update_port_eq. cbn zeta.
  rewrite Hf, Hs. cbn.
  unfold last_applied_port in *. cbn. rewrite Hl.
  unfold new_events. cbn. rewrite skipn_length_app. cbn.
  repeat split; eauto.
Qed.

Lemma update_port_empty_file_keeps_port_witness :
  let w := sample_world true (Some 9999) (String "010" EmptyString) [] in
  (fs w (port_file_path (port_handler w)) = Content (String "010" EmptyString) /\
   Py.strip (String "010" EmptyString) = EmptyString /\
   last_applied_port w = Some 9999) /\
  last_applied_port (after (update_port w)) = Some 9999 /\
  set_port_calls (new_events w (after (update_port w))) = [].
Proof.
  cbv zeta. split; [repeat split |].
  pose proof (update_port_empty_file_keeps_port
                (sample_world true (Some 9999) (String "010" EmptyString) [])
                (String "010" EmptyString) 9999 eq_refl eq_refl eq_refl) as H.
  cbv zeta in H. destruct H as (_ & H1 & H2 & _). split; assumption.
Defined.

(** C2: when the port file parses to the integer that [last_applied_port]
    holds, [update_port] calls [set_port] not at all, sends no request and
    changes neither object; so when a run has applied [p], a second run on
    the same file is suppressed, and the two runs together make exactly one
    call of [set_port]. *)
Theorem update_port_same_port_suppressed (w : world) (s : string) (p : Z) :
  fs w (port_file_path (port_handler w)) = Content s ->
  Py.int (Py.strip s) = Some p ->
  let w1 := after (update_port w) in
  let w2 := after (update_port w1) in
  (last_applied_port w = Some p ->
   value (update_port w) = Ret tt /\
   set_port_calls (new_events w w1) = [] /\
   sent w1 = sent w /\
   port_handler w1 = port_handler w /\
   qb_api w1 = qb_api w) /\
  (last_applied_port w <> Some p ->
   last_applied_port w1 = Some p ->
   set_port_calls (new_events w1 w2) = [] /\
   set_port_calls (new_events w w2) = [EvSetPort p true]).
Proof.
  intros Hf Hi. cbn zeta. split.
  - intros Hl. rewrite (update_port_unchanged w s p Hf Hi Hl). cbn.
    unfold new_events. cbn. rewrite skipn_length_app. auto.
  - intros Hl Hl1.
    destruct (update_port_frame w) as (Hfs & _ & Hpath & _).
    destruct (update_port_push w s p Hf Hi Hl)
      as (b & d & msg & _ & Hc & _ & _ & Hn & Hh).
    set (w1 := after (update_port w)) in *.
    assert (Hf1 : fs w1 (port_file_path (port_handler w1)) = Content s)
      by (rewrite Hfs, Hpath; exact Hf).
    destruct b.
    + rewrite (update_port_unchanged w1 s p Hf1 Hi Hl1). cbn.
      assert (Ht : trace w1 = (trace w ++ new_events w w1)%list).
      { destruct (update_port_frame w) as (_ & _ & _ & _ & d' & Hd').
        fold w1 in Hd'. rewrite (new_events_app _ _ _ Hd'). exact Hd'. }
      split.
      * unfold new_events at 1. cbn. rewrite skipn_length_app. reflexivity.
      * unfold new_events at 1. cbn. rewrite Ht, <- app_assoc.
        rewrite skipn_length_app, Hn. unfold set_port_calls in *.
        cbn. rewrite !filter_app, Hc. reflexivity.
    + exfalso. unfold last_applied_port in *. rewrite Hh in Hl1. auto.
Qed.

Lemma update_port_same_port_suppressed_witness :
  let w := sample_world true None "56789" [reply 200 EmptyString None] in
  let w1 := after (update_port w) in
  let w2 := after (update_port w1) in
  (fs w (port_file_path (port_handler w)) = Content "56789" /\
   Py.int (Py.strip "56789") = Some 56789 /\
   last_applied_port w <> Some 56789 /\
   last_applied_port w1 = Some 56789) /\
  set_port_calls (new_events w1 w2) = [] /\
  set_port_calls (new_events w w2) = [EvSetPort 56789 true].
Proof.
  cbv zeta. split; [repeat split; discriminate |].
  exact (proj2 (update_port_same_port_suppressed
                  (sample_world true None "56789" [reply 200 EmptyString None])
                  "56789" 56789 eq_refl eq_refl)
           ltac:(discriminate) eq_refl).
Defined.

(** C5: when [update_port] pushes a new value and [set_port] returns
    failure, [last_applied_port] is left as it was; the value is then still
    different from [last_applied_port], so the next run on the same file is
    not suppressed and calls [set_port] with it again. *)
Theorem failed_push_keeps_last_port (w : world) (s : string) (p : Z) :
  fs w (port_file_path (port_handler w)) = Content s ->
  Py.int (Py.strip s) = Some p ->
  last_applied_port w <> Some p ->
  let w1 := after (update_port w) in
  let w2 := after (update_port w1) in
  In (EvSetPort p false) (new_events w w1) ->
  last_applied_port w1 = last_applied_port w /\
  port_eq_last p (last_applied_port w1) = false /\
  exists ok, In (EvSetPort p ok) (new_events w1 w2).
Proof.
  intros Hf Hi Hl. cbn zeta. intros Hin.
  destruct (update_port_frame w) as (Hfs & _ & Hpath & _).
  destruct (update_port_push w s p Hf Hi Hl)
    as (b & d & msg & _ & Hc & _ & _ & Hn & Hh).
  set (w1 := after (update_port w)) in *.
  assert (Hb : b = false).
  { rewrite Hn in Hin. destruct b; [| reflexivity]. exfalso.
    destruct Hin as [Hin | Hin]; [discriminate |].
    apply in_app_or in Hin. destruct Hin as [Hin | [Hin | []]].
    - exact (no_set_port_call_in d p false Hc Hin).
    - discriminate. }
  subst b.
  assert (Hl1 : last_applied_port w1 = last_applied_port w)
    by (unfold last_applied_port; rewrite Hh; reflexivity).
  split; [exact Hl1 | split].
  - apply port_eq_last_false. rewrite Hl1. exact Hl.
  - assert (Hf1 : fs w1 (port_file_path (port_handler w1)) = Content s)
      by (rewrite Hfs, Hpath; exact Hf).
    rewrite <- Hl1 in Hl.
    destruct (update_port_push w1 s p Hf1 Hi Hl)
      as (b' & d' & msg' & _ & _ & _ & _ & Hn' & _).
    exists b'. rewrite Hn'. right. apply in_or_app. right. left. reflexivity.
Qed.

Lemma failed_push_keeps_last_port_witness :
  let w := sample_world true (Some 1111) "56789"
             [reply 500 EmptyString None; reply 200 EmptyString None] in
  let w1 := after (update_port w) in
  let w2 := after (update_port w1) in
  (fs w (port_file_path (port_handler w)) = Content "56789" /\
   Py.int (Py.strip "56789") = Some 56789 /\
   last_applied_port w <> Some 56789 /\
   In (EvSetPort 56789 false) (new_events w w1)) /\
  last_applied_port w1 = Some 1111 /\
  In (EvSetPort 56789 true) (new_events w1 w2).
Proof.
  cbv zeta.
  assert (Hin : In (EvSetPort 56789 false)
                  (new_events
                     (sample_world true (Some 1111) "56789"
                        [reply 500 EmptyString None; reply 200 EmptyString None])
                     (after (update_port
                        (sample_world true (Some 1111) "56789"
                           [reply 500 EmptyString None; reply 200 EmptyString None])))))
    by (vm_compute; tauto).
  split; [repeat split; [discriminate | exact Hin] |].
  pose proof (failed_push_keeps_last_port
                (sample_world true (Some 1111) "56789"
                   [reply 500 EmptyString None; reply 200 EmptyString None])
                "56789" 56789 eq_refl eq_refl ltac:(discriminate) Hin) as H.
  cbv zeta in H. destruct H as (H1 & _ & _).
  split; [exact H1 | vm_compute; tauto].
Defined.

(** ** The claims on QBittorrentAPI *)

(** C7: with authentication enabled, [login] sends the login request and
    returns success exactly when the request completes with status 200 and a
    body equal to ["Ok."]; it never raises. *)
Theorem login_success_iff (w : world) :
  disable_auth (qb_api w) = false ->
  (exists b, value (login w) = Ret b) /\
  (exists rest,
     new_events w (after (login w)) =
       EvRequest
         (POST (host (qb_api w) ++ "/api/v2/auth/login")
            [("username", username (qb_api w));
             ("password", password (qb_api w))])
         (server w (sent w)) :: rest) /\
  (value (login w) = Ret true <->
   exists r,
     server w (sent w) = Replied r /\ status_code r = 200 /\ text r = "Ok.").
Proof.
  intros Hda. destruct (login_cases w Hda) as [Hv Hn].
  split; [eauto | split; [rewrite Hn; eauto |]].
  rewrite Hv. destruct (server w (sent w)) as [| r].
  - split; [discriminate | intros (r & Hr & _); discriminate].
  - split.
    + intros [= H]. apply andb_true_iff in H. destruct H as [H1 H2].
      exists r. rewrite Z.eqb_eq in H1. rewrite String.eqb_eq in H2. auto.
    + intros (r' & [= <-] & H1 & H2). rewrite H1, H2. reflexivity.
Qed.

Lemma login_success_iff_witness :
  let w := sample_world false None EmptyString [reply 200 "Ok" None] in
  disable_auth (qb_api w) = false /\
  value (login w) = Ret false /\
  ~ (exists r,
       server w (sent w) = Replied r /\ status_code r = 200 /\
       text r = "Ok.").
Proof.
  cbv zeta. split; [reflexivity | split; [reflexivity |]].
  intros H.
  apply (proj2 (proj2 (login_success_iff
                         (sample_world false None EmptyString [reply 200 "Ok" None])
                         eq_refl))) in H.
  discriminate H.
Defined.

(** C6, as stated, fails: a client that is logged in stays logged in when a
    later [login] fails. *)
Lemma login_failure_unauthenticated_counterexample :
  let w := sample_world true None EmptyString [reply 403 "Forbidden" None] in
  disable_auth (qb_api w) = false /\
  value (login w) = Ret false /\
  logged_in (qb_api (after (login w))) = true.
Proof. cbv zeta. repeat split. Qed.

(** C6, amended: with authentication enabled, a [login] that fails leaves
    [logged_in] as it was before the call; the client is unauthenticated
    after the call when it was before it. *)
Theorem login_failure_keeps_flag (w : world) :
  disable_auth (qb_api w) = false ->
  value (login w) = Ret false ->
  logged_in (qb_api (after (login w))) = logged_in (qb_api w) /\
  (logged_in (qb_api w) = false ->
   logged_in (qb_api (after (login w))) = false).
Proof.
  intros _ Hv. destruct (login_run w) as (b & d & Hv' & _ & _ & Hli).
  rewrite Hv in Hv'. injection Hv' as <-. rewrite Hli. cbn.
  split; [reflexivity | auto].
Qed.

Lemma login_failure_keeps_flag_witness :
  let w := sample_world false None EmptyString [Failed] in
  (disable_auth (qb_api w) = false /\ value (login w) = Ret false) /\
  logged_in (qb_api (after (login w))) = false.
Proof.
  cbv zeta. split; [split; reflexivity |].
  exact (proj2 (login_failure_keeps_flag (sample_world false None EmptyString [Failed])
                  eq_refl eq_refl) eq_refl).
Defined.

(** C8, as stated, fails: logged in, status 200, a body that is not JSON:
    [get_preferences] returns none. *)
Lemma get_preferences_status_200_counterexample :
  let w := sample_world true None EmptyString [reply 200 "<html></html>" None] in
  logged_in (qb_api w) = true /\
  (exists r, server w (sent w) = Replied r /\ status_code r = 200) /\
  value (get_preferences w) = Ret None.
Proof. cbv zeta. repeat split. eexists. split; reflexivity. Qed.

(** C8, amended: once logged in, [get_preferences] sends the read request
    and never raises; on status 200 it returns the parsed body when the body
    decodes as JSON and none when it does not; on any other status and on a
    network error it returns none. *)
Theorem get_preferences_authenticated (w : world) :
  logged_in (qb_api w) = true ->
  (exists res, value (get_preferences w) = Ret res) /\
  In (EvRequest (GET (host (qb_api w) ++ "/api/v2/app/preferences"))
        (server w (sent w)))
     (new_events w (after (get_preferences w))) /\
  (forall r j,
     server w (sent w) = Replied r -> status_code r = 200 ->
     json_body r = Some j -> value (get_preferences w) = Ret (Some j)) /\
  (forall r,
     server w (sent w) = Replied r -> status_code r = 200 ->
     json_body r = None -> value (get_preferences w) = Ret None) /\
  (forall r,
     server w (sent w) = Replied r -> status_code r <> 200 ->
     value (get_preferences w) = Ret None) /\
  (server w (sent w) = Failed -> value (get_preferences w) = Ret None).
Proof.
  intros Hli. rewrite get_preferences_eq, Hli.
  destruct (get_preferences_request_run w) as (d & Hv & Hr & _ & _ & Hin).
  rewrite Hv, (new_events_app _ _ _ (run_trace _ _ _ Hr)).
  split; [eauto | split; [exact Hin |]].
  unfold preferences_of. repeat split.
  - intros r j -> H200 Hj. apply Z.eqb_eq in H200. rewrite H200, Hj.
    reflexivity.
  - intros r -> H200 Hj. apply Z.eqb_eq in H200. rewrite H200, Hj.
    reflexivity.
  - intros r -> H200. apply Z.eqb_neq in H200. rewrite H200. reflexivity.
  - intros ->. reflexivity.
Qed.

Lemma get_preferences_authenticated_witness :
  let w := sample_world true None EmptyString
             [reply 200 "{}" (Some (JObject [("listen_port", JInt 6881)]))] in
  logged_in (qb_api w) = true /\
  value (get_preferences w) = Ret (Some (JObject [("listen_port", JInt 6881)])).
Proof.
  cbv zeta. split; [reflexivity |].
  exact (proj1 (proj2 (proj2 (get_preferences_authenticated
           (sample_world true None EmptyString
              [reply 200 "{}" (Some (JObject [("listen_port", JInt 6881)]))])
           eq_refl)))
           _ _ eq_refl eq_refl eq_refl).
Defined.

(** C9: once logged in, [set_port port] sends one write request, whose
    [json] field is the serialized object with exactly the three fields
    [listen_port = port], [upnp = false] and [random_port = false], and it
    returns success exactly when the status is 200, whatever the body. *)
Theorem set_port_authenticated (w : world) (port : Z) :
  logged_in (qb_api w) = true ->
  let w' := after (set_port port w) in
  (exists b, value (set_port port w) = Ret b) /\
  write_requests (qb_api w) (new_events w w') =
    [EvRequest
       (POST (host (qb_api w) ++ "/api/v2/app/setPreferences")
          [("json",
            json_dumps [("listen_port", PInt port); ("upnp", PBool false);
                        ("random_port", PBool false)])])
       (server w (sent w))] /\
  sent w' = S (sent w) /\
  (value (set_port port w) = Ret true <->
   exists r, server w (sent w) = Replied r /\ status_code r = 200).
Proof.
  intros Hli. cbn zeta.
  assert (Hsent : sent (after (set_port port w)) = S (sent w)).
  { rewrite set_port_eq, set_port_body_eq, Hli. clear Hli.
    split_world w. unfold set_port_send. unfold_monad. cbn.
    destruct (srv n) as [| r]; cbn; [reflexivity |].
    destruct (status_code r =? 200); reflexivity. }
  destruct (set_port_logged_in port w Hli) as (d & w1 & He & Hr & Hc & Hw & _).
  rewrite He in *. cbn in *.
  assert (Hn : new_events w (with_event
             (EvSetPort port
                match server w (sent w) with
                | Failed => false
                | Replied r => status_code r =? 200
                end) w1) = (d ++ [EvSetPort port
                match server w (sent w) with
                | Failed => false
                | Replied r => status_code r =? 200
                end])%list).
  { apply new_events_app. cbn. rewrite (run_trace _ _ _ Hr), app_assoc.
    reflexivity. }
  rewrite Hn. split; [eauto | split; [| split; [exact Hsent |]]].
  - unfold write_requests in *. rewrite filter_app, Hw. reflexivity.
  - destruct (server w (sent w)) as [| r].
    + split; [discriminate | intros (r & Hx & _); discriminate].
    + split.
      * intros [= H]. apply Z.eqb_eq in H. eauto.
      * intros (r' & [= <-] & H). rewrite H. reflexivity.
Qed.

Lemma set_port_authenticated_witness :
  let w := sample_world true None EmptyString [reply 200 "Fails." None] in
  logged_in (qb_api w) = true /\ value (set_port 56789 w) = Ret true.
Proof.
  cbv zeta. split; [reflexivity |].
  apply (proj2 (proj2 (proj2 (set_port_authenticated
           (sample_world true None EmptyString [reply 200 "Fails." None]) 56789
           eq_refl)))).
  eexists. split; reflexivity.
Defined.

(** ** The initial port check and the health check *)

(** The initial port check on a port file that parses to [p], with the monad
    unfolded down to the calls of [get_preferences] and [update_port]. *)
Lemma initial_port_check_parsed (cfg : config) (w : world) (s : string)
    (p : Z) :
  fs w (PORT_FILE cfg) = Content s ->
  Py.int (Py.strip s) = Some p ->
  initial_port_check cfg w =
    match
      get_preferences
        (with_event (EvLog INFO "Checking initial port configuration") w)
    with
    | (Ret (Some prefs), w1) =>
        if json_truthy prefs then
          match prefs with
          | JObject d =>
              if json_eq_int (dict_get d "listen_port") p then
                (Ret tt,
                 with_handler
                   (mkHandler (port_file_path (port_handler w1)) (Some p))
                   (with_event
                      (EvLog INFO ("Port already correctly set to "
                                   ++ Py.str_of_int p
                                   ++ ", no update needed")) w1))
              else
                startup_except
                  (update_port
                     (with_event (EvLog INFO "Port mismatch. Updating...") w1))
          | _ => (Raise AttributeError, w1)
          end
        else
          startup_except
            (update_port
               (with_event
                  (EvLog WARNING
                     "Could not read current qBittorrent preferences, performing update anyway")
                  w1))
    | (Ret None, w1) =>
        startup_except
          (update_port
             (with_event
                (EvLog WARNING
                   "Could not read current qBittorrent preferences, performing update anyway")
                w1))
    | (Raise e, w1) => startup_except (Raise e, w1)
    end.
Proof.
  intros Hf Hi. pose proof (int_strip_nonempty _ _ Hi) as Ht.
  unfold initial_port_check, startup_except. unfold_monad. use_hyps.
  match goal with
  | |- context [get_preferences ?w0] =>
      destruct (get_preferences w0) as [[[prefs |] | e] w1]; cbn
  end.
  - destruct (json_truthy prefs) eqn:Etr; cbn.
    + destruct prefs; cbn; try reflexivity.
      destruct (json_eq_int _ p); cbn; [reflexivity |].
      match goal with
      | |- context [update_port ?w2] =>
          destruct (update_port w2) as [[[] | e] w3]; reflexivity
      end.
    + match goal with
      | |- context [update_port ?w2] =>
          destruct (update_port w2) as [[[] | e] w3]; reflexivity
      end.
  - match goal with
    | |- context [update_port ?w2] =>
        destruct (update_port w2) as [[[] | e] w3]; reflexivity
    end.
  - reflexivity.
Qed.

(** Without a port file that parses, the initial port check leaves both
    objects as they are and sends nothing. *)
Lemma initial_port_check_unparsed (cfg : config) (w : world) :
  (forall s, fs w (PORT_FILE cfg) = Content s -> Py.int (Py.strip s) = None) ->
  let w' := after (initial_port_check cfg w) in
  port_handler w' = port_handler w /\ qb_api w' = qb_api w /\
  sent w' = sent w.
Proof.
  intros Hnone. cbn zeta.
  unfold initial_port_check. unfold_monad. cbn.
  destruct (fs w (PORT_FILE cfg)) as [| e | s] eqn:Ef; use_hyps.
  - auto.
  - destruct (is_ValueError e || is_FileNotFoundError e); cbn; auto.
  - destruct (Py.truthy_str (Py.strip s)); use_hyps; [| auto].
    rewrite (Hnone s eq_refl). cbn. auto.
Qed.

Lemma startup_except_update_port (w : world) :
  let w' := after (startup_except (update_port w)) in
  port_handler w' = port_handler w \/
  exists p t,
    last_port (port_handler w) <> Some p /\
    port_handler w' = mkHandler (port_file_path (port_handler w)) (Some p) /\
    trace w' = (t ++ [EvSetPort p true])%list.
Proof.
  cbn zeta. destruct (update_port_handler w) as [H | (p & t & Hv & H)].
  - left. destruct (update_port w) as [[[] | e] w1]; cbn in *; [exact H |].
    destruct (is_ValueError e || is_FileNotFoundError e); exact H.
  - right. exists p, t.
    destruct (update_port w) as [[[] | e] w1]; cbn in *;
      [exact H | discriminate].
Qed.

Lemma health_check_handler (w : world) :
  port_handler (after (health_check w)) = port_handler w.
Proof.
  unfold health_check. unfold_monad. cbn.
  destruct (get_preferences_run w) as (r & d & Hv & Hr & _).
  destruct (get_preferences w) as [x w1]. cbn in *. subst x.
  destruct r as [prefs |]; cbn.
  - destruct prefs; cbn; apply Hr.
  - match goal with
    | |- context [login ?w2] =>
        destruct (login_run w2) as (b & d' & Hv' & Hr' & _);
        destruct (login w2) as [y w3]; cbn in *; subst y
    end.
    destruct b; cbn; rewrite (run_handler _ _ _ Hr'); cbn; apply Hr.
Qed.

Lemma on_event_cases (ev : fs_event) (w : world) :
  on_event ev w = update_port w \/ on_event ev w = (Ret tt, w).
Proof.
  unfold on_event. unfold_monad. cbn.
  destruct (String.eqb (src_path ev) (port_file_path (port_handler w))
            && negb (is_directory ev)); auto.
Qed.

(** The handler after the initial port check: as before, or holding a port
    that a push has just confirmed, or holding the port of the file that the
    service reports too. *)
Lemma initial_port_check_handler (cfg : config) (w : world) :
  let w' := after (initial_port_check cfg w) in
  port_handler w' = port_handler w \/
  exists p,
    port_handler w' = mkHandler (port_file_path (port_handler w)) (Some p) /\
    (confirmed_by_push w' p \/
     found_at_startup (InitialPortCheck cfg) w w' p).
Proof.
  cbn zeta.
  destruct (fs w (PORT_FILE cfg)) as [| e | s] eqn:Ef;
    try (left; apply initial_port_check_unparsed; intros s Hs; congruence).
  destruct (Py.int (Py.strip s)) as [p |] eqn:Ei;
    [| left; apply initial_port_check_unparsed; intros s' Hs'; congruence].
  rewrite (initial_port_check_parsed cfg w s p Ef Ei).
  match goal with
  | |- context [get_preferences ?w0] =>
      destruct (get_preferences_run w0) as (r & d & Hv & Hr & Hq & Hrp);
      destruct (get_preferences w0) as [x w1]; cbn in Hv, Hr, Hq, Hrp; subst x
  end.
  assert (Hup : forall lvl msg,
    let w' := after (startup_except
                       (update_port (with_event (EvLog lvl msg) w1))) in
    port_handler w' = port_handler w \/
    exists p,
      port_handler w' = mkHandler (port_file_path (port_handler w)) (Some p) /\
      (confirmed_by_push w' p \/
       found_at_startup (InitialPortCheck cfg) w w' p)).
  { intros lvl msg. cbn zeta.
    destruct (startup_except_update_port (with_event (EvLog lvl msg) w1))
      as [H | (q & t & _ & H1 & H2)]; cbn in *.
    - left. rewrite H. apply Hr.
    - right. exists q. rewrite (run_handler _ _ _ Hr) in H1. cbn in H1.
      split; [exact H1 | left; exists t; exact H2]. }
  destruct r as [prefs |]; [| apply Hup].
  destruct (json_truthy prefs) eqn:Etr; [| apply Hup].
  destruct prefs as [| | | | | dct]; try (left; apply Hr).
  destruct (json_eq_int (dict_get dct "listen_port") p) eqn:Eeq; [| apply Hup].
  right. exists p. cbn. rewrite (run_handler _ _ _ Hr). cbn.
  split; [reflexivity | right].
  destruct (Hrp _ eq_refl) as (rp & Hin & H200 & Hb).
  exists cfg, s, rp, dct.
  assert (Hn : new_events w
            (with_handler (mkHandler (port_file_path (port_handler w)) (Some p))
               (with_event
                  (EvLog INFO ("Port already correctly set to "
                               ++ Py.str_of_int p ++ ", no update needed"))
                  w1))
          = (EvLog INFO "Checking initial port configuration"
               :: d ++ [EvLog INFO ("Port already correctly set to "
                               ++ Py.str_of_int p ++ ", no update needed")])%list).
  { apply new_events_app. cbn. rewrite (run_trace _ _ _ Hr). cbn.
    rewrite <- !app_assoc. reflexivity. }
  rewrite Hn. repeat split; auto.
  - right. apply in_or_app. left. exact Hin.
  - destruct Hq as [Hc _]. unfold set_port_calls in *. cbn.
    rewrite filter_app, Hc. reflexivity.
Qed.

(** Every operation leaves the handler as it was or makes it hold a port
    that was confirmed in one of the two ways. *)
Lemma operation_handler (o : operation) (w : world) :
  let w' := after (run_operation o w) in
  port_handler w' = port_handler w \/
  exists p,
    port_handler w' = mkHandler (port_file_path (port_handler w)) (Some p) /\
    (confirmed_by_push w' p \/ found_at_startup o w w' p).
Proof.
  cbn zeta. destruct o as [cfg | ev | ev | | f]; cbn [run_operation].
  - apply initial_port_check_handler.
  - unfold on_modified.
    destruct (on_event_cases ev w) as [-> | ->]; [| left; reflexivity].
    destruct (update_port_handler w) as [H | (p & t & _ & _ & H1 & H2)];
      [left; exact H |].
    right. exists p. split; [exact H1 | left; exists t; exact H2].
  - unfold on_created.
    destruct (on_event_cases ev w) as [-> | ->]; [| left; reflexivity].
    destruct (update_port_handler w) as [H | (p & t & _ & _ & H1 & H2)];
      [left; exact H |].
    right. exists p. split; [exact H1 | left; exists t; exact H2].
  - left. apply health_check_handler.
  - left. reflexivity.
Qed.

(** ** The claims on the reconciler state *)

Lemma run_operations_cons (o : operation) (os : list operation) (w : world) :
  run_operations (o :: os) w =
    match run_operation o w with
    | (Ret _, w1) => run_operations os w1
    | (Raise e, w1) => (Raise e, w1)
    end.
Proof. reflexivity. Qed.

Lemma operation_keeps_port (o : operation) (w : world) (p : Z) :
  last_applied_port w = Some p ->
  exists q, last_applied_port (after (run_operation o w)) = Some q.
Proof.
  unfold last_applied_port. intros Hl.
  destruct (operation_handler o w) as [H | (q & H & _)]; rewrite H; cbn;
    eauto.
Qed.

(** C10: once [last_applied_port] holds an integer, it holds an integer
    after every sequence of operations of the running system: each operation
    leaves it as it is or replaces it by another integer. *)
Theorem last_applied_port_never_cleared (os : list operation) (w : world)
    (p : Z) :
  last_applied_port w = Some p ->
  exists q, last_applied_port (after (run_operations os w)) = Some q.
Proof.
  revert w p. induction os as [| o os IH]; intros w p Hl.
  - exists p. exact Hl.
  - rewrite run_operations_cons.
    destruct (operation_keeps_port o w p Hl) as (q & Hq).
    destruct (run_operation o w) as [[[] | e] w1]; cbn in Hq.
    + exact (IH w1 q Hq).
    + exists q. exact Hq.
Qed.

Lemma last_applied_port_never_cleared_witness :
  let w := sample_world true (Some 9999) EmptyString [reply 200 EmptyString None; Failed] in
  let os := [OnModified (mkFsEvent "/app/port.dat" false); HealthCheck;
             Outside (one_file "/app/port.dat" "56789");
             OnCreated (mkFsEvent "/app/port.dat" false)] in
  last_applied_port w = Some 9999 /\
  exists q, last_applied_port (after (run_operations os w)) = Some q.
Proof.
  cbv zeta. split; [reflexivity |].
  exact (last_applied_port_never_cleared
           [OnModified (mkFsEvent "/app/port.dat" false); HealthCheck;
            Outside (one_file "/app/port.dat" "56789");
            OnCreated (mkFsEvent "/app/port.dat" false)]
           (sample_world true (Some 9999) EmptyString [reply 200 EmptyString None; Failed])
           9999 eq_refl).
Defined.

(** [main] up to the watcher: exit when the login fails, else the initial
    port check with a new handler, whose [last_port] is empty. *)
Lemma main_startup_cases (cfg : config) (w : world) :
  main_startup cfg w =
    match login (before_login cfg w) with
    | (Ret true, w1) =>
        initial_port_check cfg
          (with_handler (PortFileHandler_init (PORT_FILE cfg)) w1)
    | (Ret false, w1) =>
        (Raise (SystemExit 1),
         with_event (EvLog ERROR "Failed to connect to qBittorrent. Exiting.")
           w1)
    | (Raise e, w1) => (Raise e, w1)
    end.
Proof.
  unfold main_startup, before_login. unfold_monad. cbn.
  match goal with
  | |- context [login ?w0] => destruct (login w0) as [[[] |] w1]; reflexivity
  end.
Qed.

Lemma before_login_trace (cfg : config) (w : world) :
  trace (before_login cfg w) = (trace w ++ startup_banner cfg)%list.
Proof. cbn. rewrite <- !app_assoc. reflexivity. Qed.

Lemma quiet_banner (a : QBittorrentAPI) (cfg : config) :
  quiet a (startup_banner cfg).
Proof. split; reflexivity. Qed.

(** C3, as stated, fails: at start-up the port of the file becomes the last
    applied port without any call of [set_port], when the service reports
    the same port. *)
Lemma last_port_set_without_push_counterexample :
  let w := boot_world "56789"
             [reply 200 "Ok." None;
              reply 200 EmptyString (Some (JObject [("listen_port", JInt 56789)]))] in
  let w' := after (main_startup sample_config w) in
  last_applied_port w = None /\
  last_applied_port w' = Some 56789 /\
  set_port_calls (trace w') = [] /\
  write_requests (qb_api w') (trace w') = [] /\
  ~ confirmed_by_push w' 56789.
Proof.
  cbv zeta. repeat split.
  intros [t Ht].
  apply (f_equal (fun l => last l (EvLog DEBUG EmptyString))) in Ht.
  rewrite last_last in Ht. vm_compute in Ht. discriminate Ht.
Qed.

(** C3, amended: [main] creates the handler with an empty [last_port], and
    an operation of the system changes [last_applied_port] only to a port
    [p] such that a call of [set_port p] has just returned success, or such
    that the initial port check found the file to hold [p] and the service to
    report [listen_port] equal to [p], in which case no call of [set_port]
    was made. *)
Theorem last_port_changes_only_when_confirmed (o : operation) (w : world) :
  last_applied_port (after (run_operation o w)) <> last_applied_port w ->
  (exists p,
     last_applied_port (after (run_operation o w)) = Some p /\
     (confirmed_by_push (after (run_operation o w)) p \/
      found_at_startup o w (after (run_operation o w)) p)) /\
  (forall cfg w0,
     (exists e w1, main_startup cfg w0 = (Raise e, w1)) \/
     (exists w1,
        last_applied_port w1 = None /\
        main_startup cfg w0 = run_operation (InitialPortCheck cfg) w1)).
Proof.
  intros Hch. split.
  - unfold last_applied_port in *.
    destruct (operation_handler o w) as [H | (p & H & Hp)].
    + rewrite H in Hch. congruence.
    + exists p. rewrite H. auto.
  - intros cfg w0. rewrite main_startup_cases.
    match goal with
    | |- context [login ?w0] => destruct (login w0) as [[[] | e] w1]
    end; [right | left; eauto | left; eauto].
    exists (with_handler (PortFileHandler_init (PORT_FILE cfg)) w1).
    split; reflexivity.
Qed.

Lemma last_port_changes_only_when_confirmed_witness :
  let w := sample_world true (Some 1111) "56789" [reply 200 EmptyString None] in
  let o := OnModified (mkFsEvent "/app/port.dat" false) in
  last_applied_port (after (run_operation o w)) <> last_applied_port w /\
  exists p,
    last_applied_port (after (run_operation o w)) = Some p /\
    (confirmed_by_push (after (run_operation o w)) p \/
     found_at_startup o w (after (run_operation o w)) p).
Proof.
  cbv zeta. split; [discriminate |].
  exact (proj1 (last_port_changes_only_when_confirmed
                  (OnModified (mkFsEvent "/app/port.dat" false))
                  (sample_world true (Some 1111) "56789" [reply 200 EmptyString None])
                  ltac:(discriminate))).
Defined.

(** ** The claim on start-up *)

Lemma get_preferences_request_sent (w : world) :
  sent (after (get_preferences_request w)) = S (sent w).
Proof.
  split_world w. unfold get_preferences_request. unfold_monad. cbn.
  destruct (srv n) as [| r]; cbn; [reflexivity |].
  destruct (status_code r =? 200); cbn; [| reflexivity].
  destruct (json_body r); reflexivity.
Qed.

Lemma write_requests_same_host (a a' : QBittorrentAPI) (d : list event) :
  host a' = host a -> write_requests a' d = write_requests a d.
Proof. unfold write_requests, setPreferences_url. intros ->. reflexivity. Qed.

Lemma set_port_request_same_host (a a' : QBittorrentAPI) (p : Z) :
  host a' = host a -> set_port_request a' p = set_port_request a p.
Proof. unfold set_port_request, setPreferences_url. intros ->. reflexivity. Qed.

(** The reconciliation step of start-up: logged in, nothing applied yet, a
    port file that parses to [p]: one call of [set_port p], one write
    request. *)
Lemma startup_push (w2 : world) (s : string) (p : Z) (lvl : level)
    (msg : string) :
  logged_in (qb_api w2) = true ->
  last_applied_port w2 = None ->
  fs w2 (port_file_path (port_handler w2)) = Content s ->
  Py.int (Py.strip s) = Some p ->
  let r := startup_except (update_port (with_event (EvLog lvl msg) w2)) in
  value r = Ret tt /\
  exists ok d,
    trace (after r) = (trace w2 ++ d)%list /\
    set_port_calls d = [EvSetPort p ok] /\
    write_requests (qb_api w2) d =
      [EvRequest (set_port_request (qb_api w2) p) (server w2 (sent w2))] /\
    last_applied_port (after r) = (if ok then Some p else None) /\
    host (qb_api (after r)) = host (qb_api w2).
Proof.
  intros Hli Hl Hf Hi. cbn zeta.
  set (w3 := with_event (EvLog lvl msg) w2).
  assert (Hl3 : last_applied_port w3 <> Some p)
    by (unfold last_applied_port in *; cbn; rewrite Hl; discriminate).
  destruct (update_port_push w3 s p Hf Hi Hl3)
    as (b & d & m & Hv & Hc & _ & Hw & Hn & Hh).
  destruct (update_port_frame w3) as (_ & _ & _ & Hhost & d' & Hd').
  rewrite (new_events_app _ _ _ Hd') in Hn. subst d'.
  specialize (Hw Hli).
  destruct (update_port w3) as [[[] | e] wz]; cbn in *; [| discriminate].
  split; [reflexivity |].
  exists b. eexists. split; [rewrite Hd', <- app_assoc; reflexivity |].
  unfold last_applied_port in *. rewrite Hh.
  unfold set_port_calls, write_requests in *. cbn.
  rewrite !filter_app, Hc, Hw. cbn.
  destruct b; cbn; auto.
Qed.

(** C4: in the start-up sequence, after a successful login and with a port
    file that parses to [p]: when the preferences that [get_preferences]
    reports hold [listen_port] equal to [p], no call of [set_port] and no
    write request is made and [last_applied_port] becomes [p]; when the
    preferences could not be read or report another port, the reconciliation
    step runs and makes exactly one call of [set_port], with [p], which sends
    exactly one write request. *)
Theorem startup_reconciliation (cfg : config) (w w1 : world) (s : string)
    (p : Z) :
  login (before_login cfg w) = (Ret true, w1) ->
  fs w (PORT_FILE cfg) = Content s ->
  Py.int (Py.strip s) = Some p ->
  let prefs := preferences_of (server w (sent w1)) in
  let w' := after (main_startup cfg w) in
  value (get_preferences w1) = Ret prefs /\
  (reports_port prefs p = true ->
   value (main_startup cfg w) = Ret tt /\
   last_applied_port w' = Some p /\
   set_port_calls (new_events w w') = [] /\
   write_requests (qb_api w') (new_events w w') = []) /\
  (unread_or_differs prefs p = true ->
   value (main_startup cfg w) = Ret tt /\
   exists ok,
     set_port_calls (new_events w w') = [EvSetPort p ok] /\
     write_requests (qb_api w') (new_events w w') =
       [EvRequest (set_port_request (qb_api w') p)
          (server w (S (sent w1)))] /\
     last_applied_port w' = (if ok then Some p else None)).
Proof.
  intros Hlogin Hf Hi. cbn zeta.
  destruct (login_run (before_login cfg w)) as (b & dl & Hv & Hr & Hq & Hli).
  rewrite Hlogin in Hv, Hr, Hli. cbn in Hv, Hr, Hli. injection Hv as <-.
  cbn in Hli.
  assert (Hfs1 : fs w1 = fs w) by apply Hr.
  assert (Hsrv1 : server w1 = server w) by apply Hr.
  assert (Htr1 : trace w1 = (trace w ++ startup_banner cfg ++ dl)%list)
    by (rewrite (run_trace _ _ _ Hr), before_login_trace, <- app_assoc;
        reflexivity).
  set (wh := with_handler (PortFileHandler_init (PORT_FILE cfg)) w1).
  set (wc := with_event (EvLog INFO "Checking initial port configuration") wh).
  assert (Hfh : fs wh (PORT_FILE cfg) = Content s)
    by (cbn; rewrite Hfs1; exact Hf).
  destruct (get_preferences_request_run wc) as (d2 & Hv2 & Hr2 & Hq2 & Ha2 & _).
  pose proof (get_preferences_request_sent wc) as Hs2.
  (* the run of [main_startup] *)
  rewrite main_startup_cases, Hlogin. fold wh.
  rewrite (initial_port_check_parsed cfg wh s p Hfh Hi). fold wc.
  rewrite (get_preferences_eq wc).
  replace (logged_in (qb_api wc)) with true by (symmetry; exact Hli).
  destruct (get_preferences_request wc) as [x w2]. cbn in Hv2, Hr2, Ha2, Hs2.
  subst x. rewrite Hsrv1 in *.
  set (prefs := preferences_of (server w (sent w1))) in *.
  assert (Hhost : host (qb_api w1) = host (qb_api (before_login cfg w)))
    by apply Hr.
  assert (Hq1 : quiet (qb_api w1) dl)
    by (apply (quiet_same_host (qb_api (before_login cfg w))); assumption).
  set (checked := (startup_banner cfg ++ dl
                   ++ EvLog INFO "Checking initial port configuration"
                   :: d2)%list).
  assert (Htr2 : trace w2 = (trace w ++ checked)%list).
  { rewrite (run_trace _ _ _ Hr2). unfold wc, wh, checked. cbn [trace with_event with_handler].
    rewrite Htr1, <- !app_assoc. reflexivity. }
  assert (Hquiet2 : quiet (qb_api w1) checked).
  { apply quiet_app; [apply quiet_banner |].
    apply quiet_app; [exact Hq1 |].
    apply (quiet_app _ [_]); [apply quiet_log | exact Hq2]. }
  assert (Hskip : forall lvl msg,
    let r := (Ret tt,
              with_handler
                (mkHandler (port_file_path (port_handler w2)) (Some p))
                (with_event (EvLog lvl msg) w2)) in
    value r = Ret tt /\
    last_applied_port (after r) = Some p /\
    set_port_calls (new_events w (after r)) = [] /\
    write_requests (qb_api (after r)) (new_events w (after r)) = []).
  { intros lvl msg. cbn zeta. cbn. split; [reflexivity | split; [reflexivity |]].
    rewrite (new_events_app w _ (checked ++ [EvLog lvl msg])%list)
      by (cbn; rewrite Htr2, <- app_assoc; reflexivity).
    rewrite Ha2.
    apply quiet_app; [exact Hquiet2 | apply quiet_log]. }
  assert (Hpush : forall lvl msg,
    let r := startup_except (update_port (with_event (EvLog lvl msg) w2)) in
    value r = Ret tt /\
    exists ok,
      set_port_calls (new_events w (after r)) = [EvSetPort p ok] /\
      write_requests (qb_api (after r)) (new_events w (after r)) =
        [EvRequest (set_port_request (qb_api (after r)) p)
           (server w (S (sent w1)))] /\
      last_applied_port (after r) = (if ok then Some p else None)).
  { intros lvl msg. cbn zeta.
    assert (Hli2 : logged_in (qb_api w2) = true) by (rewrite Ha2; exact Hli).
    assert (Hl2 : last_applied_port w2 = None)
      by (unfold last_applied_port; rewrite (run_handler _ _ _ Hr2);
          reflexivity).
    assert (Hf2 : fs w2 (port_file_path (port_handler w2)) = Content s)
      by (rewrite (run_fs _ _ _ Hr2), (run_handler _ _ _ Hr2); exact Hfh).
    destruct (startup_push w2 s p lvl msg Hli2 Hl2 Hf2 Hi)
      as (Hval & ok & d & Htr & Hc & Hw & Hl & Hh).
    split; [exact Hval |]. exists ok.
    rewrite (new_events_app w _ (checked ++ d)%list)
      by (rewrite Htr, Htr2, <- app_assoc; reflexivity).
    rewrite (write_requests_same_host (qb_api w2) _ _ Hh).
    rewrite (set_port_request_same_host (qb_api w2) _ _ Hh).
    destruct Hquiet2 as [Hqc Hqw]. rewrite <- Ha2 in Hqw.
    unfold set_port_calls, write_requests in *.
    rewrite !filter_app, Hqc, Hqw, Hc, Hw.
    rewrite (run_server _ _ _ Hr2), Hs2. cbn. rewrite Hsrv1.
    repeat split. exact Hl. }
  split; [| split].
  - rewrite get_preferences_eq, Hli.
    destruct (get_preferences_request_run w1) as (d & Hvd & _).
    rewrite Hvd, Hsrv1. reflexivity.
  - intros Hrep. destruct prefs as [[| | | | | dct] |]; try discriminate Hrep.
    cbn in Hrep. destruct dct as [| kv dct]; [discriminate Hrep |].
    cbn [json_truthy]. rewrite Hrep. apply Hskip.
  - intros Hdiff. destruct prefs as [j |]; [| apply Hpush].
    destruct (json_truthy j) eqn:Etr; [| apply Hpush].
    destruct j as [| | | | | dct]; cbn in Etr, Hdiff; try discriminate Etr;
      try (apply negb_true_iff in Hdiff; congruence).
    apply negb_true_iff in Hdiff. rewrite Hdiff. apply Hpush.
Qed.

Lemma startup_reconciliation_witness :
  let w := boot_world "56789"
             [reply 200 "Ok." None;
              reply 200 EmptyString (Some (JObject [("listen_port", JInt 12345)]));
              reply 200 EmptyString None] in
  let w1 := after (login (before_login sample_config w)) in
  let w' := after (main_startup sample_config w) in
  (login (before_login sample_config w) = (Ret true, w1) /\
   fs w (PORT_FILE sample_config) = Content "56789" /\
   Py.int (Py.strip "56789") = Some 56789 /\
   unread_or_differs (preferences_of (server w (sent w1))) 56789 = true) /\
  value (main_startup sample_config w) = Ret tt /\
  exists ok,
    set_port_calls (new_events w w') = [EvSetPort 56789 ok] /\
    write_requests (qb_api w') (new_events w w') =
      [EvRequest (set_port_request (qb_api w') 56789)
         (server w (S (sent w1)))] /\
    last_applied_port w' = (if ok then Some 56789 else None).
Proof.
  cbv zeta. split; [repeat split |].
  exact (proj2 (proj2
           (startup_reconciliation sample_config
              (boot_world "56789"
                 [reply 200 "Ok." None;
                  reply 200 EmptyString (Some (JObject [("listen_port", JInt 12345)]));
                  reply 200 EmptyString None])
              (after (login (before_login sample_config
                 (boot_world "56789"
                    [reply 200 "Ok." None;
                     reply 200 EmptyString
                       (Some (JObject [("listen_port", JInt 12345)]));
                     reply 200 EmptyString None]))))
              "56789" 56789 eq_refl eq_refl eq_refl))
           eq_refl).
Defined.

(** ** Sample runs *)

Example strip_sample :
  Py.strip (String "009" (String "010" " 56789  ")) = "56789".
Proof. reflexivity. Qed.

Example int_samples :
  Py.int "56789" = Some 56789 /\ Py.int "-5" = Some (-5) /\
  Py.int "+007" = Some 7 /\ Py.int "1_000" = Some 1000 /\
  Py.int "1__0" = None /\ Py.int "abc" = None /\ Py.int EmptyString = None /\
  Py.int "12 34" = None.
Proof. repeat split. Qed.

Example str_of_int_samples :
  Py.str_of_int 56789 = "56789" /\ Py.str_of_int 0 = "0" /\
  Py.str_of_int (-12) = "-12".
Proof. repeat split. Qed.

Example host_sample :
  host (QBittorrentAPI_init "http://localhost:8080//" "admin" "adminadmin"
          false)
  = "http://localhost:8080".
Proof. reflexivity. Qed.

(** The body of the write request for port 56789. *)
Example json_dumps_sample :
  json_dumps (preferences 56789) =
    "{" ++ dquote ++ "listen_port" ++ dquote ++ ": 56789, "
        ++ dquote ++ "upnp" ++ dquote ++ ": false, "
        ++ dquote ++ "random_port" ++ dquote ++ ": false}".
Proof. reflexivity. Qed.

(** Start-up with a service that already listens on the port of the file:
    a login, a read, no write. *)
Example startup_skip_sample :
  let w := boot_world "56789"
             [reply 200 "Ok." None;
              reply 200 EmptyString (Some (JObject [("listen_port", JInt 56789)]))] in
  let w' := after (main_startup sample_config w) in
  value (main_startup sample_config w) = Ret tt /\
  last_applied_port w' = Some 56789 /\
  sent w' = 2%nat /\
  set_port_calls (trace w') = [].
Proof. cbv zeta. repeat split. Qed.

(** Invalid content: an error in the log, no call, state unchanged. *)
Example invalid_content_sample :
  let w := sample_world true (Some 9999) "abc" [] in
  update_port w =
    (Ret tt, with_event (EvLog ERROR "Invalid port number in file: abc") w).
Proof. reflexivity. Qed.

(** A failed login at start-up ends the process with exit code 1. *)
Example startup_exit_sample :
  value (main_startup sample_config (boot_world "56789" [reply 403 "Fails." None]))
  = Raise (SystemExit 1).
Proof. reflexivity. Qed.

(** * Further properties *)

#[local] Hint Rewrite <- app_assoc : traces.
#[local] Hint Rewrite @skipn_length_app : traces.

(** ** The session client *)



(** X2: with authentication disabled, [get_preferences] and [set_port] go
    to their own request at once, logged in or not: one request each, whose
    reply alone decides the result. *)
Theorem auth_disabled_direct_requests (w : world) (port : Z) :
  disable_auth (qb_api w) = true ->
  (requests_in (new_events w (after (get_preferences w)))
     = [GET (preferences_url (qb_api w))] /\
   value (get_preferences w) = Ret (preferences_of (server w (sent w)))) /\
  (requests_in (new_events w (after (set_port port w)))
     = [set_port_request (qb_api w) port] /\
   value (set_port port w) = Ret (write_ok (server w (sent w)))).
Proof.
  split_world w. cbn. intros ->. split; run_api.
  - destruct li; cbn; case_reply; tidy_trace;
      try (destruct (status_code r =? 200); tidy_trace;
           try (destruct (json_body r); tidy_trace));
      split; reflexivity.
  - destruct li; cbn; case_reply; tidy_trace;
      try (destruct (status_code r =? 200); tidy_trace);
      split; reflexivity.
Qed.

Lemma auth_disabled_direct_requests_witness :
  let w := mkWorld (mkAPI "http://qb" "u" "p" true false)
             (mkHandler "/app/port.dat" None) (fun _ => Missing)
             (replies [reply 200 "" None]) 0 [] in
  disable_auth (qb_api w) = true /\
  value (set_port 6881 w) = Ret true.
Proof.
  cbv zeta. split; [reflexivity |].
  exact (proj2 (proj2 (auth_disabled_direct_requests
           (mkWorld (mkAPI "http://qb" "u" "p" true false)
              (mkHandler "/app/port.dat" None) (fun _ => Missing)
              (replies [reply 200 "" None]) 0 []) 6881 eq_refl))).
Defined.

(** X3: [login], [get_preferences] and [set_port] never raise, whatever the
    state of the client and whatever the server does. *)
Theorem api_methods_never_raise (w : world) (port : Z) :
  (exists b, value (login w) = Ret b) /\
  (exists r, value (get_preferences w) = Ret r) /\
  (exists b, value (set_port port w) = Ret b).
Proof.
  split; [| split].
  - destruct (login_run w) as (b & d & H & _). exists b. exact H.
  - destruct (get_preferences_run w) as (r & d & H & _). exists r. exact H.
  - destruct (set_port_run port w) as (b & d & w1 & H & _).
    rewrite H. exists b. reflexivity.
Qed.

(** X4: the methods of the client leave the handler and the file system as
    they are; in particular [set_port] does not record the port it pushed. *)
Theorem api_methods_keep_handler (w : world) (port : Z) :
  (port_handler (after (login w)) = port_handler w /\
   fs (after (login w)) = fs w) /\
  (port_handler (after (get_preferences w)) = port_handler w /\
   fs (after (get_preferences w)) = fs w) /\
  (port_handler (after (set_port port w)) = port_handler w /\
   fs (after (set_port port w)) = fs w).
Proof.
  split; [| split].
  - destruct (login_run w) as (b & d & _ & Hr & _). split; apply Hr.
  - destruct (get_preferences_run w) as (r & d & _ & Hr & _). split; apply Hr.
  - destruct (set_port_run port w) as (b & d & w1 & H & Hr & _).
    rewrite H. cbn. split; apply Hr.
Qed.

(** X5: when the client is not logged in and authentication is enabled,
    [get_preferences] logs in first: the login request comes first, the read
    request follows only when the login succeeded, and a failed login gives
    none.  The client is logged in afterwards exactly when the login
    succeeded. *)
Theorem get_preferences_logs_in_first (w : world) :
  logged_in (qb_api w) = false ->
  disable_auth (qb_api w) = false ->
  requests_in (new_events w (after (get_preferences w)))
    = login_request (qb_api w)
      :: (if login_ok (server w (sent w))
          then [GET (preferences_url (qb_api w))] else []) /\
  value (get_preferences w)
    = Ret (if login_ok (server w (sent w))
           then preferences_of (server w (S (sent w))) else None) /\
  logged_in (qb_api (after (get_preferences w)))
    = login_ok (server w (sent w)).
Proof.
  split_world w. cbn. intros -> ->. run_api.
  destruct (srv n) as [| r] eqn:E0; tidy_trace; [auto |].
  destruct ((status_code r =? 200) && String.eqb (text r) "Ok."); tidy_trace;
    [| auto].
  destruct (srv (S n)) as [| r'] eqn:E1; tidy_trace; [auto |].
  destruct (status_code r' =? 200); tidy_trace; [| auto].
  destruct (json_body r'); tidy_trace; auto.
Qed.

Lemma get_preferences_logs_in_first_witness :
  let w := sample_world false None EmptyString [reply 401 "" None] in
  (logged_in (qb_api w) = false /\ disable_auth (qb_api w) = false) /\
  value (get_preferences w) = Ret None /\
  logged_in (qb_api (after (get_preferences w))) = false.
Proof.
  cbv zeta. split; [split; reflexivity |].
  exact (proj2 (get_preferences_logs_in_first
           (sample_world false None EmptyString [reply 401 "" None])
           eq_refl eq_refl)).
Defined.

(** X6: when the client is not logged in and authentication is enabled,
    [set_port] logs in first: a failed login gives failure without any write
    request; after a successful login the write request follows and its
    status decides the result. *)
Theorem set_port_logs_in_first (w : world) (port : Z) :
  logged_in (qb_api w) = false ->
  disable_auth (qb_api w) = false ->
  requests_in (new_events w (after (set_port port w)))
    = login_request (qb_api w)
      :: (if login_ok (server w (sent w))
          then [set_port_request (qb_api w) port] else []) /\
  value (set_port port w)
    = Ret (login_ok (server w (sent w))
           && write_ok (server w (S (sent w)))) /\
  logged_in (qb_api (after (set_port port w)))
    = login_ok (server w (sent w)).
Proof.
  split_world w. cbn. intros -> ->. run_api.
  destruct (srv n) as [| r] eqn:E0; tidy_trace; [auto |].
  destruct ((status_code r =? 200) && String.eqb (text r) "Ok."); tidy_trace;
    [| auto].
  destruct (srv (S n)) as [| r'] eqn:E1; tidy_trace; [auto |].
  destruct (status_code r' =? 200); tidy_trace; auto.
Qed.

Lemma set_port_logs_in_first_witness :
  let w := sample_world false None EmptyString
             [reply 200 "Ok." None; reply 200 "" None] in
  (logged_in (qb_api w) = false /\ disable_auth (qb_api w) = false) /\
  value (set_port 6881 w) = Ret true /\
  logged_in (qb_api (after (set_port 6881 w))) = true.
Proof.
  cbv zeta. split; [split; reflexivity |].
  exact (proj2 (set_port_logs_in_first
           (sample_world false None EmptyString
              [reply 200 "Ok." None; reply 200 "" None])
           6881 eq_refl eq_refl)).
Defined.

(** ** The port file handler *)

(** X7: the watcher's callbacks run [update_port] for a file event on the
    exact configured path, and do nothing at all for an event on another
    path or on a directory. *)
Theorem watcher_filter (ev : fs_event) (w : world) :
  (src_path ev = port_file_path (port_handler w) /\ is_directory ev = false ->
   on_modified ev w = update_port w /\ on_created ev w = update_port w) /\
  (src_path ev <> port_file_path (port_handler w) \/ is_directory ev = true ->
   on_modified ev w = (Ret tt, w) /\ on_created ev w = (Ret tt, w)).
Proof.
  unfold on_modified, on_created, on_event. unfold_monad. cbn. split.
  - intros [-> ->]. rewrite String.eqb_refl. cbn. auto.
  - intros [Hp | ->].
    + apply String.eqb_neq in Hp. rewrite Hp. cbn. auto.
    + rewrite andb_false_r. auto.
Qed.

Lemma watcher_filter_witness :
  let w := sample_world true None "56789" [reply 200 EmptyString None] in
  let ev := mkFsEvent "/app/other.dat" false in
  (src_path ev <> port_file_path (port_handler w) \/ is_directory ev = true) /\
  on_modified ev w = (Ret tt, w) /\ on_created ev w = (Ret tt, w).
Proof.
  cbv zeta.
  assert (H : src_path (mkFsEvent "/app/other.dat" false)
              <> port_file_path
                   (port_handler
                      (sample_world true None "56789"
                         [reply 200 EmptyString None]))
              \/ is_directory (mkFsEvent "/app/other.dat" false) = true)
    by (left; discriminate).
  split; [exact H |].
  apply (proj2 (watcher_filter (mkFsEvent "/app/other.dat" false)
                  (sample_world true None "56789"
                     [reply 200 EmptyString None]))).
  exact H.
Defined.

(** X8: when the port file does not exist, or exists but cannot be read,
    [update_port] returns normally after one log line: it sends nothing and
    changes neither the client nor the handler. *)
Theorem update_port_without_file (w : world) :
  fs w (port_file_path (port_handler w)) = Missing \/
  (exists e, fs w (port_file_path (port_handler w)) = Unreadable e /\
             is_Exception e = true) ->
  value (update_port w) = Ret tt /\
  port_handler (after (update_port w)) = port_handler w /\
  qb_api (after (update_port w)) = qb_api w /\
  sent (after (update_port w)) = sent w /\
  exists lvl msg, new_events w (after (update_port w)) = [EvLog lvl msg].
Proof.
  intros [Hf | (e & Hf & He)]; rewrite update_port_eq; cbn zeta;
    rewrite Hf, ?He; unfold new_events; cbn; rewrite skipn_length_app;
    repeat split; eauto.
Qed.

Lemma update_port_without_file_witness :
  let w := mkWorld (mkAPI "http://qb" "u" "p" false true)
             (mkHandler "/app/port.dat" (Some 9999))
             (fun _ => Unreadable PermissionError) (fun _ => Failed) 0 [] in
  (exists e, fs w (port_file_path (port_handler w)) = Unreadable e /\
             is_Exception e = true) /\
  value (update_port w) = Ret tt /\
  port_handler (after (update_port w)) = port_handler w.
Proof.
  cbv zeta. split; [exists PermissionError; split; reflexivity |].
  pose proof (update_port_without_file
                (mkWorld (mkAPI "http://qb" "u" "p" false true)
                   (mkHandler "/app/port.dat" (Some 9999))
                   (fun _ => Unreadable PermissionError) (fun _ => Failed)
                   0 [])
                (or_intror (ex_intro _ PermissionError
                              (conj eq_refl eq_refl)))) as H.
  destruct H as (H1 & H2 & _). split; assumption.
Defined.

(** X9: when the trimmed content of the port file is not empty and is not
    an integer, [update_port] logs one error naming the content, calls
    [set_port] not at all, sends nothing and changes no state. *)
Theorem update_port_invalid_content (w : world) (s : string) :
  fs w (port_file_path (port_handler w)) = Content s ->
  Py.strip s <> EmptyString ->
  Py.int (Py.strip s) = None ->
  update_port w =
    (Ret tt,
     with_event
       (EvLog ERROR ("Invalid port number in file: " ++ Py.strip s)) w).
Proof.
  intros Hf Hne Hi. rewrite update_port_eq. cbn zeta. rewrite Hf, Hi.
  destruct (Py.strip s); [congruence | reflexivity].
Qed.

Lemma update_port_invalid_content_witness :
  let w := sample_world true (Some 9999) "12ab" [] in
  (fs w (port_file_path (port_handler w)) = Content "12ab" /\
   Py.strip "12ab" <> EmptyString /\ Py.int (Py.strip "12ab") = None) /\
  last_applied_port (after (update_port w)) = Some 9999 /\
  sent (after (update_port w)) = 0%nat.
Proof.
  cbv zeta. split; [repeat split; discriminate |].
  rewrite (update_port_invalid_content
             (sample_world true (Some 9999) "12ab" []) "12ab" eq_refl
             ltac:(discriminate) eq_refl).
  split; reflexivity.
Defined.

(** X10: [update_port] lets no exception escape: whatever the file holds and
    whatever the server does, it returns normally, provided that the error
    of an unreadable file is an [Exception]. *)
Theorem update_port_never_raises (w : world) :
  (forall e, fs w (port_file_path (port_handler w)) = Unreadable e ->
             is_Exception e = true) ->
  value (update_port w) = Ret tt.
Proof.
  intros He. rewrite update_port_eq. cbn zeta.
  destruct (fs w (port_file_path (port_handler w))) as [| e | s];
    [reflexivity | rewrite (He e eq_refl); reflexivity |].
  destruct (Py.truthy_str (Py.strip s)); [| reflexivity].
  destruct (Py.int (Py.strip s)) as [port |]; [| reflexivity].
  destruct (port_eq_last port (last_port (port_handler w))); [reflexivity |].
  match goal with
  | |- context [set_port port ?w1] =>
      destruct (set_port_run port w1) as (b & d & w2 & -> & _)
  end.
  destruct b; reflexivity.
Qed.

Lemma update_port_never_raises_witness :
  let w := sample_world false None "56789" [] in
  (forall e, fs w (port_file_path (port_handler w)) = Unreadable e ->
             is_Exception e = true) /\
  value (update_port w) = Ret tt.
Proof.
  cbv zeta. split; [intros e H; discriminate H |].
  apply (update_port_never_raises (sample_world false None "56789" [])).
  intros e H. discriminate H.
Defined.

(** A logged-in client pushes a new port with one write request. *)
Lemma update_port_push_logged_in (w : world) (s : string) (p : Z) :
  logged_in (qb_api w) = true ->
  fs w (port_file_path (port_handler w)) = Content s ->
  Py.int (Py.strip s) = Some p ->
  last_applied_port w <> Some p ->
  requests_in (new_events w (after (update_port w)))
    = [set_port_request (qb_api w) p] /\
  set_port_calls (new_events w (after (update_port w)))
    = [EvSetPort p (write_ok (server w (sent w)))] /\
  last_applied_port (after (update_port w))
    = (if write_ok (server w (sent w)) then Some p else last_applied_port w) /\
  qb_api (after (update_port w)) = qb_api w.
Proof.
  intros Hli Hf Hi Hl. rewrite update_port_eq. cbn zeta.
  rewrite Hf, (int_strip_nonempty _ _ Hi), Hi.
  apply port_eq_last_false in Hl. unfold last_applied_port in *. rewrite Hl.
  clear Hf Hi Hl. revert Hli. split_world w. cbn. intros ->. run_api.
  destruct (srv n) as [| r] eqn:E; tidy_trace; [auto |].
  destruct (status_code r =? 200); tidy_trace; auto.
Qed.

(** X11: a logged-in client, a port file that parses to a port [p] other
    than the last applied one: [update_port] sends exactly one request, the
    write request for [p]; [last_applied_port] becomes [p] when the reply
    has status 200 and is left as it was otherwise. *)
Theorem update_port_applies_new_port (w : world) (s : string) (p : Z) :
  logged_in (qb_api w) = true ->
  fs w (port_file_path (port_handler w)) = Content s ->
  Py.int (Py.strip s) = Some p ->
  last_applied_port w <> Some p ->
  requests_in (new_events w (after (update_port w)))
    = [set_port_request (qb_api w) p] /\
  set_port_calls (new_events w (after (update_port w)))
    = [EvSetPort p (write_ok (server w (sent w)))] /\
  last_applied_port (after (update_port w))
    = (if write_ok (server w (sent w)) then Some p else last_applied_port w) /\
  qb_api (after (update_port w)) = qb_api w.
Proof. exact (update_port_push_logged_in w s p). Qed.

Lemma update_port_applies_new_port_witness :
  let w := sample_world true (Some 1111) (String "010" " 56789 ")
             [reply 200 EmptyString None] in
  (logged_in (qb_api w) = true /\
   fs w (port_file_path (port_handler w)) = Content (String "010" " 56789 ") /\
   Py.int (Py.strip (String "010" " 56789 ")) = Some 56789 /\
   last_applied_port w <> Some 56789) /\
  last_applied_port (after (update_port w)) = Some 56789.
Proof.
  cbv zeta. split; [repeat split; discriminate |].
  exact (proj1 (proj2 (proj2 (update_port_applies_new_port
           (sample_world true (Some 1111) (String "010" " 56789 ")
              [reply 200 EmptyString None])
           (String "010" " 56789 ") 56789 eq_refl eq_refl eq_refl
           ltac:(discriminate))))).
Defined.

(** X12: one run of [update_port] never retries: it sends at most two
    requests (a login and a write), at most one of them a write request, and
    calls [set_port] at most once. *)
Theorem update_port_sends_at_most_two (w : world) :
  (sent (after (update_port w)) <= 2 + sent w)%nat /\
  (length (write_requests (qb_api w)
             (new_events w (after (update_port w)))) <= 1)%nat /\
  (length (set_port_calls (new_events w (after (update_port w)))) <= 1)%nat.
Proof.
  rewrite update_port_eq. cbn zeta.
  destruct (fs w (port_file_path (port_handler w))) as [| e | s];
    [ | destruct (is_Exception e) | destruct (Py.truthy_str (Py.strip s));
        [destruct (Py.int (Py.strip s)) as [port |];
         [destruct (port_eq_last port (last_port (port_handler w))) |] |] ];
    try (unfold new_events; cbn; rewrite ?skipn_length_app, ?firstn_all;
         cbn; repeat constructor; fail).
  - unfold new_events. cbn. rewrite skipn_all. cbn. repeat constructor.
  - split_world w. run_api.
    unfold write_requests, login_request, set_port_request,
      setPreferences_url, login_url.
    destruct li, da; cbn;
      repeat (first
        [ case_reply
        | match goal with
          | |- context [if ?c then _ else _] => destruct c eqn:?
          end ];
        tidy_trace; autorewrite with urls);
      try match goal with
          | H : String.eqb _ _ = _ |- _ => vm_compute in H; discriminate H
          end;
      lazy; repeat constructor.
Qed.

(** ** Start-up *)

Lemma startup_after_login (cfg : config) (w w1 : world) :
  login (before_login cfg w) = (Ret true, w1) ->
  let wh := with_handler (PortFileHandler_init (PORT_FILE cfg)) w1 in
  main_startup cfg w = initial_port_check cfg wh /\
  fs wh = fs w /\ server wh = server w /\
  logged_in (qb_api wh) = true /\
  exists dl, trace wh = (trace w ++ startup_banner cfg ++ dl)%list /\
             quiet (qb_api wh) dl.
Proof.
  intros Hlogin. cbn zeta. rewrite main_startup_cases, Hlogin.
  destruct (login_run (before_login cfg w)) as (b & dl & Hv & Hr & Hq & Hli).
  rewrite Hlogin in Hv, Hr, Hli. cbn in Hv, Hr, Hli. injection Hv as <-.
  split; [reflexivity |]. cbn.
  split; [apply Hr | split; [apply Hr | split; [exact Hli |]]].
  exists dl. split.
  - rewrite (run_trace _ _ _ Hr), before_login_trace, <- app_assoc.
    reflexivity.
  - apply (quiet_same_host (qb_api (before_login cfg w))); [apply Hr | exact Hq].
Qed.

(** X13: with authentication enabled, a start-up whose login fails ends the
    process with exit code 1: the login request is the only request, no
    handler is created and [set_port] is never called. *)
Theorem startup_exits_when_login_fails (cfg : config) (w : world) :
  QB_DISABLE_AUTH cfg = false ->
  login_ok (server w (sent w)) = false ->
  value (main_startup cfg w) = Raise (SystemExit 1) /\
  requests_in (new_events w (after (main_startup cfg w)))
    = [POST (Py.rstrip_char "/" (QB_HOST cfg) ++ "/api/v2/auth/login")
         [("username", QB_USERNAME cfg); ("password", QB_PASSWORD cfg)]] /\
  port_handler (after (main_startup cfg w)) = port_handler w /\
  set_port_calls (new_events w (after (main_startup cfg w))) = [].
Proof.
  intros Hda Hok. destruct w as [a hd f srv n tr]. cbn in Hok.
  unfold main_startup. run_api. rewrite Hda. cbn.
  unfold login_ok in Hok.
  destruct (srv n) as [| r] eqn:E; tidy_trace; tidy_trace; auto.
Qed.

Lemma startup_exits_when_login_fails_witness :
  let w := boot_world "56789" [reply 200 "Fails." None] in
  (QB_DISABLE_AUTH sample_config = false /\
   login_ok (server w (sent w)) = false) /\
  value (main_startup sample_config w) = Raise (SystemExit 1).
Proof.
  cbv zeta. split; [split; reflexivity |].
  exact (proj1 (startup_exits_when_login_fails sample_config
                  (boot_world "56789" [reply 200 "Fails." None])
                  eq_refl eq_refl)).
Defined.

(** X14: after a successful login, a start-up that finds no port file, or a
    port file that is empty or not an integer, goes on to the watcher
    without any further request: nothing is applied and [last_applied_port]
    stays empty. *)
Theorem startup_without_port (cfg : config) (w w1 : world) :
  login (before_login cfg w) = (Ret true, w1) ->
  fs w (PORT_FILE cfg) = Missing \/
  (exists s, fs w (PORT_FILE cfg) = Content s /\
             Py.int (Py.strip s) = None) ->
  value (main_startup cfg w) = Ret tt /\
  last_applied_port (after (main_startup cfg w)) = None /\
  sent (after (main_startup cfg w)) = sent w1 /\
  qb_api (after (main_startup cfg w)) = qb_api w1.
Proof.
  intros Hlogin Hfile.
  destruct (startup_after_login cfg w w1 Hlogin) as (-> & Hfs & _).
  cbn in Hfs.
  assert (Hstate : forall s,
            fs (with_handler (PortFileHandler_init (PORT_FILE cfg)) w1)
               (PORT_FILE cfg) = Content s ->
            Py.int (Py.strip s) = None).
  { intros s Hs. cbn in Hs. rewrite Hfs in Hs.
    destruct Hfile as [Hm | (s' & Hc & Hi)]; congruence. }
  destruct (initial_port_check_unparsed cfg _ Hstate) as (Hh & Ha & Hs).
  unfold last_applied_port. rewrite Hh, Ha, Hs.
  split; [| auto].
  unfold initial_port_check. unfold_monad. cbn. rewrite Hfs.
  destruct Hfile as [Hm | (s & Hc & Hi)].
  - rewrite Hm. reflexivity.
  - rewrite Hc. cbn. rewrite Hfs, Hc. cbn.
    destruct (Py.truthy_str (Py.strip s)); cbn; [| reflexivity].
    rewrite Hi. reflexivity.
Qed.

Lemma startup_without_port_witness :
  let w := boot_world "not a port" [reply 200 "Ok." None] in
  let w1 := after (login (before_login sample_config w)) in
  (login (before_login sample_config w) = (Ret true, w1) /\
   exists s, fs w (PORT_FILE sample_config) = Content s /\
             Py.int (Py.strip s) = None) /\
  value (main_startup sample_config w) = Ret tt /\
  last_applied_port (after (main_startup sample_config w)) = None.
Proof.
  cbv zeta.
  assert (H : exists s,
             fs (boot_world "not a port" [reply 200 "Ok." None])
                (PORT_FILE sample_config) = Content s /\
             Py.int (Py.strip s) = None)
    by (exists "not a port"; split; reflexivity).
  split; [split; [reflexivity | exact H] |].
  pose proof (startup_without_port sample_config
                (boot_world "not a port" [reply 200 "Ok." None])
                (after (login (before_login sample_config
                   (boot_world "not a port" [reply 200 "Ok." None]))))
                eq_refl (or_intror H)) as H'.
  destruct H' as (H1 & H2 & _). split; assumption.
Defined.

(** X15: at start-up a port file that exists but cannot be read stops
    [main], unless the error is a [ValueError] or a [FileNotFoundError]: the
    [except] clause of the initial check names only these two, so a
    [PermissionError] escapes, while [update_port] would catch it. *)
Theorem startup_unreadable_file_escapes (cfg : config) (w w1 : world)
    (e : exn) :
  login (before_login cfg w) = (Ret true, w1) ->
  fs w (PORT_FILE cfg) = Unreadable e ->
  is_ValueError e = false ->
  is_FileNotFoundError e = false ->
  value (main_startup cfg w) = Raise e /\
  last_applied_port (after (main_startup cfg w)) = None /\
  sent (after (main_startup cfg w)) = sent w1.
Proof.
  intros Hlogin Hf Hv Hn.
  destruct (startup_after_login cfg w w1 Hlogin) as (-> & Hfs & _).
  cbn in Hfs.
  unfold initial_port_check. unfold_monad. cbn. rewrite Hfs, Hf. cbn.
  rewrite Hfs, Hf. cbn. rewrite Hv, Hn. cbn. auto.
Qed.

Lemma startup_unreadable_file_escapes_witness :
  let w := mkWorld (mkAPI EmptyString EmptyString EmptyString false false)
             (mkHandler EmptyString None)
             (fun _ => Unreadable PermissionError)
             (replies [reply 200 "Ok." None]) 0 [] in
  let w1 := after (login (before_login sample_config w)) in
  (login (before_login sample_config w) = (Ret true, w1) /\
   fs w (PORT_FILE sample_config) = Unreadable PermissionError /\
   is_ValueError PermissionError = false /\
   is_FileNotFoundError PermissionError = false) /\
  value (main_startup sample_config w) = Raise PermissionError.
Proof.
  cbv zeta. split; [repeat split |].
  exact (proj1 (startup_unreadable_file_escapes sample_config
           (mkWorld (mkAPI EmptyString EmptyString EmptyString false false)
              (mkHandler EmptyString None)
              (fun _ => Unreadable PermissionError)
              (replies [reply 200 "Ok." None]) 0 [])
           (after (login (before_login sample_config
              (mkWorld (mkAPI EmptyString EmptyString EmptyString false false)
                 (mkHandler EmptyString None)
                 (fun _ => Unreadable PermissionError)
                 (replies [reply 200 "Ok." None]) 0 []))))
           PermissionError eq_refl eq_refl eq_refl eq_refl)).
Defined.

(** X16: at start-up, preferences that decode to a JSON value which is true
    as a Python object but is not an object (a number, a string, a non-empty
    array) stop [main]: [prefs.get] raises [AttributeError], which the
    initial check does not catch; nothing has been applied. *)
Theorem startup_non_object_preferences (cfg : config) (w w1 : world)
    (s : string) (p : Z) (j : json) :
  login (before_login cfg w) = (Ret true, w1) ->
  fs w (PORT_FILE cfg) = Content s ->
  Py.int (Py.strip s) = Some p ->
  preferences_of (server w (sent w1)) = Some j ->
  json_truthy j = true ->
  (forall d, j <> JObject d) ->
  value (main_startup cfg w) = Raise AttributeError /\
  last_applied_port (after (main_startup cfg w)) = None.
Proof.
  intros Hlogin Hf Hi Hp Ht Hno.
  destruct (startup_after_login cfg w w1 Hlogin)
    as (-> & Hfs & Hsrv & Hli & _).
  cbn in Hfs, Hsrv, Hli.
  rewrite (initial_port_check_parsed cfg _ s p)
    by (first [exact Hi | cbn; rewrite Hfs; exact Hf]).
  rewrite get_preferences_eq. cbn [qb_api with_event with_handler].
  rewrite Hli.
  match goal with
  | |- context [get_preferences_request ?wc] =>
      destruct (get_preferences_request_run wc) as (d2 & Hv2 & Hr2 & _);
      destruct (get_preferences_request wc) as [x w2]
  end.
  cbn in Hv2, Hr2. rewrite Hsrv, Hp in Hv2. subst x. rewrite Ht.
  unfold last_applied_port.
  destruct j; cbn; try (rewrite (run_handler _ _ _ Hr2); cbn; auto).
  exfalso. eapply Hno. reflexivity.
Qed.

Lemma startup_non_object_preferences_witness :
  let w := boot_world "56789"
             [reply 200 "Ok." None; reply 200 "[1]" (Some (JArray [JInt 1]))] in
  let w1 := after (login (before_login sample_config w)) in
  (login (before_login sample_config w) = (Ret true, w1) /\
   fs w (PORT_FILE sample_config) = Content "56789" /\
   Py.int (Py.strip "56789") = Some 56789 /\
   preferences_of (server w (sent w1)) = Some (JArray [JInt 1]) /\
   json_truthy (JArray [JInt 1]) = true) /\
  value (main_startup sample_config w) = Raise AttributeError.
Proof.
  cbv zeta. split; [repeat split |].
  apply (startup_non_object_preferences sample_config
           (boot_world "56789"
              [reply 200 "Ok." None; reply 200 "[1]" (Some (JArray [JInt 1]))])
           (after (login (before_login sample_config
              (boot_world "56789"
                 [reply 200 "Ok." None;
                  reply 200 "[1]" (Some (JArray [JInt 1]))]))))
           "56789" 56789 (JArray [JInt 1])); try reflexivity.
  intros d H. discriminate H.
Defined.

(** ** The health check *)

(** X17: a health check by a logged-in client whose probe is answered with
    status 200 and a JSON object sends that one request and leaves the
    client and the handler as they are. *)
Theorem health_check_healthy (w : world) (r : response)
    (d : list (string * json)) :
  logged_in (qb_api w) = true ->
  server w (sent w) = Replied r ->
  status_code r = 200 ->
  json_body r = Some (JObject d) ->
  value (health_check w) = Ret tt /\
  requests_in (new_events w (after (health_check w)))
    = [GET (preferences_url (qb_api w))] /\
  qb_api (after (health_check w)) = qb_api w /\
  port_handler (after (health_check w)) = port_handler w.
Proof.
  split_world w. cbn. intros -> Hs H200 Hj. apply Z.eqb_eq in H200.
  unfold health_check. run_api. rewrite Hs. cbn. rewrite H200. cbn.
  rewrite Hj. tidy_trace. auto.
Qed.

Lemma health_check_healthy_witness :
  let w := sample_world true (Some 6881) "6881"
             [reply 200 "{}" (Some (JObject [("listen_port", JInt 6881)]))] in
  (logged_in (qb_api w) = true /\
   server w (sent w)
     = reply 200 "{}" (Some (JObject [("listen_port", JInt 6881)]))) /\
  value (health_check w) = Ret tt /\
  qb_api (after (health_check w)) = qb_api w.
Proof.
  cbv zeta. split; [split; reflexivity |].
  pose proof (health_check_healthy
                (sample_world true (Some 6881) "6881"
                   [reply 200 "{}"
                      (Some (JObject [("listen_port", JInt 6881)]))])
                _ _ eq_refl eq_refl eq_refl eq_refl) as H.
  destruct H as (H1 & _ & H2 & _). split; assumption.
Defined.

(** X18: a health check by a logged-in client whose probe fails (network
    error, status other than 200, or a body that is not JSON) resets the
    session and logs in again in the same round: the client is logged in
    afterwards exactly when that login succeeded, and a failed login does not
    stop the loop.  With authentication disabled no login request is sent
    and the client is logged in again at once. *)
Theorem health_check_reconnects (w : world) :
  logged_in (qb_api w) = true ->
  preferences_of (server w (sent w)) = None ->
  value (health_check w) = Ret tt /\
  requests_in (new_events w (after (health_check w)))
    = GET (preferences_url (qb_api w))
      :: (if disable_auth (qb_api w) then []
          else [login_request (qb_api w)]) /\
  logged_in (qb_api (after (health_check w)))
    = (disable_auth (qb_api w) || login_ok (server w (S (sent w)))).
Proof.
  split_world w. cbn. intros -> Hp.
  unfold health_check. run_api. unfold preferences_of in Hp.
  destruct (srv n) as [| r] eqn:E0; cbn.
  - destruct da; cbn; [tidy_trace; auto |].
    destruct (srv (S n)) as [| r'] eqn:E1; tidy_trace; [auto |].
    destruct ((status_code r' =? 200) && String.eqb (text r') "Ok.");
      tidy_trace; auto.
  - destruct (status_code r =? 200) eqn:E200; cbn.
    + rewrite Hp. cbn.
      destruct da; cbn; [tidy_trace; auto |].
      destruct (srv (S n)) as [| r'] eqn:E1; tidy_trace; [auto |].
      destruct ((status_code r' =? 200) && String.eqb (text r') "Ok.");
        tidy_trace; auto.
    + destruct da; cbn; [tidy_trace; auto |].
      destruct (srv (S n)) as [| r'] eqn:E1; tidy_trace; [auto |].
      destruct ((status_code r' =? 200) && String.eqb (text r') "Ok.");
        tidy_trace; auto.
Qed.

Lemma health_check_reconnects_witness :
  let w := sample_world true (Some 6881) "6881"
             [Failed; reply 200 "Ok." None] in
  (logged_in (qb_api w) = true /\
   preferences_of (server w (sent w)) = None) /\
  value (health_check w) = Ret tt /\
  logged_in (qb_api (after (health_check w))) = true.
Proof.
  cbv zeta. split; [split; reflexivity |].
  pose proof (health_check_reconnects
                (sample_world true (Some 6881) "6881"
                   [Failed; reply 200 "Ok." None]) eq_refl eq_refl) as H.
  destruct H as (H1 & _ & H2). split; [exact H1 | exact H2].
Defined.

(** X19: the health check only reads and logs in: whatever the state of the
    client and whatever the server answers, it never calls [set_port], never
    sends a write request and never changes the handler. *)
Theorem health_check_never_pushes (w : world) :
  port_handler (after (health_check w)) = port_handler w /\
  set_port_calls (new_events w (after (health_check w))) = [] /\
  write_requests (qb_api w) (new_events w (after (health_check w))) = [].
Proof.
  split; [apply health_check_handler |].
  change (quiet (qb_api w) (new_events w (after (health_check w)))).
  unfold health_check. unfold_monad. cbn.
  destruct (get_preferences_run w) as (r & d & Hv & Hr & Hq & _).
  destruct (get_preferences w) as [x w1]. cbn in Hv, Hr. subst x.
  pose proof (run_trace _ _ _ Hr) as Ht.
  destruct r as [prefs |]; cbn.
  - destruct prefs; cbn;
      try (rewrite (new_events_app _ _ _ Ht); exact Hq).
    rewrite (new_events_app w _ (d ++ [EvLog DEBUG
               "Current qBittorrent listening port"]))
      by (cbn; rewrite Ht, <- app_assoc; reflexivity).
    apply quiet_app; [exact Hq | apply quiet_log].
  - match goal with
    | |- context [login ?w2] =>
        destruct (login_run w2) as (b & d' & Hv' & Hr' & Hq' & _);
        destruct (login w2) as [y w3]; cbn in Hv', Hr', Hq'; subst y
    end.
    pose proof (run_trace _ _ _ Hr') as Ht'. cbn in Ht'. rewrite Ht in Ht'.
    assert (Hq2 : quiet (qb_api w) d').
    { apply (quiet_same_host (qb_api w1)); [symmetry; apply Hr |].
      exact Hq'. }
    assert (Hq3 : quiet (qb_api w)
              ((d ++ [EvLog WARNING
                  "Lost connection to qBittorrent, attempting to reconnect..."])
               ++ d')).
    { apply quiet_app; [apply quiet_app; [exact Hq | apply quiet_log] |].
      exact Hq2. }
    destruct b; cbn.
    + rewrite (new_events_app w _
                 ((d ++ [EvLog WARNING
                    "Lost connection to qBittorrent, attempting to reconnect..."])
                  ++ d'))
        by (rewrite Ht', <- !app_assoc; reflexivity).
      exact Hq3.
    + rewrite (new_events_app w _
                 (((d ++ [EvLog WARNING
                    "Lost connection to qBittorrent, attempting to reconnect..."])
                   ++ d') ++ [EvLog ERROR "Failed to reconnect to qBittorrent"]))
        by (cbn; rewrite Ht', <- !app_assoc; reflexivity).
      apply quiet_app; [exact Hq3 | apply quiet_log].
Qed.

(** ** Strings: trailing slashes, white space, decimal numbers *)

Lemma append_cons (c : ascii) (s t : string) :
  (String c s ++ t)%string = String c (s ++ t).
Proof. reflexivity. Qed.

Lemma append_empty_r (s : string) : (s ++ EmptyString)%string = s.
Proof.
  induction s as [| c s IH]; [reflexivity |].
  rewrite append_cons, IH. reflexivity.
Qed.

Lemma append_assoc_r (s t u : string) :
  ((s ++ t) ++ u)%string = (s ++ t ++ u)%string.
Proof.
  induction s as [| c s IH]; [reflexivity |].
  rewrite !append_cons, IH. reflexivity.
Qed.

Lemma list_ascii_of_string_app (s t : string) :
  list_ascii_of_string (s ++ t)
  = (list_ascii_of_string s ++ list_ascii_of_string t)%list.
Proof.
  induction s as [| c s IH]; [reflexivity |].
  rewrite append_cons. cbn. rewrite IH. reflexivity.
Qed.

Lemma string_of_list_ascii_app (l m : list ascii) :
  string_of_list_ascii (l ++ m)
  = (string_of_list_ascii l ++ string_of_list_ascii m)%string.
Proof.
  induction l as [| c l IH]; [reflexivity |].
  cbn. rewrite IH, append_cons. reflexivity.
Qed.

Lemma reverse_app (s t : string) :
  Py.reverse (s ++ t) = (Py.reverse t ++ Py.reverse s)%string.
Proof.
  unfold Py.reverse.
  rewrite list_ascii_of_string_app, rev_app_distr, string_of_list_ascii_app.
  reflexivity.
Qed.

Lemma reverse_involutive (s : string) : Py.reverse (Py.reverse s) = s.
Proof.
  unfold Py.reverse.
  rewrite list_ascii_of_string_of_list_ascii, rev_involutive.
  apply string_of_list_ascii_of_string.
Qed.

Lemma reverse_single (c : ascii) :
  Py.reverse (String c EmptyString) = String c EmptyString.
Proof. reflexivity. Qed.

Lemma lstrip_char_head (x : ascii) (s : string) (c : ascii) (r : string) :
  Py.lstrip_char x s = String c r -> Ascii.eqb c x = false.
Proof.
  induction s as [| c' s IH]; cbn; [discriminate |].
  destruct (Ascii.eqb c' x) eqn:E; [exact IH |].
  intros [= <- _]. exact E.
Qed.

(** X20: the client drops every trailing slash of the configured host, so
    that a host written with or without a trailing slash gives the same
    client and the same URLs, and the stored host never ends with a slash. *)
Theorem host_without_trailing_slash (h u pw : string) (da : bool) :
  QBittorrentAPI_init (h ++ "/") u pw da = QBittorrentAPI_init h u pw da /\
  forall h', host (QBittorrentAPI_init h u pw da) <> (h' ++ "/")%string.
Proof.
  unfold QBittorrentAPI_init, Py.rstrip_char. split.
  - rewrite reverse_app. rewrite reverse_single, append_cons. cbn.
    reflexivity.
  - cbn. intros h' H.
    apply (f_equal Py.reverse) in H.
    rewrite reverse_involutive, reverse_app, reverse_single, append_cons in H.
    apply lstrip_char_head in H. discriminate H.
Qed.

Lemma lstrip_cons (c : ascii) (r : string) :
  Py.lstrip (String c r) = if Py.isspace c then Py.lstrip r else String c r.
Proof. reflexivity. Qed.

Lemma is_blank_cons (c : ascii) (s : string) :
  is_blank (String c s) = Py.isspace c && is_blank s.
Proof. reflexivity. Qed.

Lemma no_blank_cons (c : ascii) (s : string) :
  no_blank (String c s) = negb (Py.isspace c) && no_blank s.
Proof. reflexivity. Qed.

Lemma forallb_rev {A} (f : A -> bool) (l : list A) :
  forallb f (rev l) = forallb f l.
Proof.
  induction l as [| x l IH]; [reflexivity |].
  cbn. rewrite forallb_app, IH. cbn. rewrite andb_true_r. apply andb_comm.
Qed.

Lemma is_blank_reverse (s : string) : is_blank (Py.reverse s) = is_blank s.
Proof.
  unfold is_blank, Py.reverse.
  rewrite list_ascii_of_string_of_list_ascii. apply forallb_rev.
Qed.

Lemma no_blank_reverse (s : string) : no_blank (Py.reverse s) = no_blank s.
Proof.
  unfold no_blank, Py.reverse.
  rewrite list_ascii_of_string_of_list_ascii. apply forallb_rev.
Qed.

Lemma reverse_nonempty (s : string) :
  s <> EmptyString -> Py.reverse s <> EmptyString.
Proof.
  intros Hs H. apply Hs. rewrite <- (reverse_involutive s), H. reflexivity.
Qed.

Lemma lstrip_blank_app (a t : string) :
  is_blank a = true -> Py.lstrip (a ++ t) = Py.lstrip t.
Proof.
  induction a as [| c a IH]; [reflexivity |].
  rewrite is_blank_cons, append_cons, lstrip_cons.
  intros H. apply andb_true_iff in H. destruct H as [-> H]. auto.
Qed.

Lemma lstrip_no_blank_app (s t : string) :
  no_blank s = true -> s <> EmptyString -> Py.lstrip (s ++ t) = (s ++ t)%string.
Proof.
  destruct s as [| c s]; [congruence |].
  rewrite no_blank_cons, append_cons, lstrip_cons.
  intros H _. apply andb_true_iff in H. destruct H as [H _].
  apply negb_true_iff in H. rewrite H. reflexivity.
Qed.

(** White space around a text without white space is what [strip] removes. *)
Lemma strip_padded (a s b : string) :
  is_blank a = true -> is_blank b = true ->
  no_blank s = true -> s <> EmptyString ->
  Py.strip (a ++ s ++ b) = s.
Proof.
  intros Ha Hb Hs Hne. unfold Py.strip, Py.rstrip.
  rewrite !reverse_app, append_assoc_r.
  rewrite lstrip_blank_app by (rewrite is_blank_reverse; exact Hb).
  rewrite lstrip_no_blank_app
    by (rewrite ?no_blank_reverse; auto using reverse_nonempty).
  rewrite reverse_app, !reverse_involutive.
  rewrite lstrip_blank_app by exact Ha.
  rewrite <- (append_empty_r s) at 1.
  rewrite lstrip_no_blank_app by assumption.
  apply append_empty_r.
Qed.

Lemma int_tail_digit (c : ascii) (r : string) (acc k : Z) :
  Py.digit c = Some k ->
  Py.int_tail (String c r) acc = Py.int_tail r (10 * acc + k).
Proof. intros H. cbn [Py.int_tail]. rewrite H. reflexivity. Qed.

Lemma shift_digit (acc k : positive) :
  10 * Z.pos acc + Z.pos k = Z.pos (Pos.add k (Pos.mul 10 acc)).
Proof. rewrite Pos.add_comm. reflexivity. Qed.

Lemma shift_zero (acc : positive) :
  10 * Z.pos acc + 0 = Z.pos (Pos.mul 10 acc).
Proof. rewrite Z.add_0_r. reflexivity. Qed.

Lemma int_tail_of_uint_acc (d : Decimal.uint) (acc : positive) :
  Py.int_tail (NilEmpty.string_of_uint d) (Z.pos acc)
  = Some (Z.pos (Pos.of_uint_acc d acc)).
Proof.
  revert acc. induction d as [| d IH | d IH | d IH | d IH | d IH | d IH
                              | d IH | d IH | d IH | d IH]; intros acc;
    cbn [NilEmpty.string_of_uint Pos.of_uint_acc]; [reflexivity | ..].
  - rewrite (int_tail_digit "0"%char _ _ 0 eq_refl), shift_zero. apply IH.
  - rewrite (int_tail_digit "1"%char _ _ 1 eq_refl), shift_digit. apply IH.
  - rewrite (int_tail_digit "2"%char _ _ 2 eq_refl), shift_digit. apply IH.
  - rewrite (int_tail_digit "3"%char _ _ 3 eq_refl), shift_digit. apply IH.
  - rewrite (int_tail_digit "4"%char _ _ 4 eq_refl), shift_digit. apply IH.
  - rewrite (int_tail_digit "5"%char _ _ 5 eq_refl), shift_digit. apply IH.
  - rewrite (int_tail_digit "6"%char _ _ 6 eq_refl), shift_digit. apply IH.
  - rewrite (int_tail_digit "7"%char _ _ 7 eq_refl), shift_digit. apply IH.
  - rewrite (int_tail_digit "8"%char _ _ 8 eq_refl), shift_digit. apply IH.
  - rewrite (int_tail_digit "9"%char _ _ 9 eq_refl), shift_digit. apply IH.
Qed.

Lemma int_tail_of_uint (d : Decimal.uint) :
  Py.int_tail (NilEmpty.string_of_uint d) 0 = Some (Z.of_N (Pos.of_uint d)).
Proof.
  induction d as [| d IH | d IH | d IH | d IH | d IH | d IH
                  | d IH | d IH | d IH | d IH];
    cbn [NilEmpty.string_of_uint Pos.of_uint Z.of_N]; [reflexivity | ..].
  - rewrite (int_tail_digit "0"%char _ _ 0 eq_refl). exact IH.
  - rewrite (int_tail_digit "1"%char _ _ 1 eq_refl). apply int_tail_of_uint_acc.
  - rewrite (int_tail_digit "2"%char _ _ 2 eq_refl). apply int_tail_of_uint_acc.
  - rewrite (int_tail_digit "3"%char _ _ 3 eq_refl). apply int_tail_of_uint_acc.
  - rewrite (int_tail_digit "4"%char _ _ 4 eq_refl). apply int_tail_of_uint_acc.
  - rewrite (int_tail_digit "5"%char _ _ 5 eq_refl). apply int_tail_of_uint_acc.
  - rewrite (int_tail_digit "6"%char _ _ 6 eq_refl). apply int_tail_of_uint_acc.
  - rewrite (int_tail_digit "7"%char _ _ 7 eq_refl). apply int_tail_of_uint_acc.
  - rewrite (int_tail_digit "8"%char _ _ 8 eq_refl). apply int_tail_of_uint_acc.
  - rewrite (int_tail_digit "9"%char _ _ 9 eq_refl). apply int_tail_of_uint_acc.
Qed.

Lemma int_unsigned_of_uint (d : Decimal.uint) :
  d <> Decimal.Nil ->
  Py.int_unsigned (NilEmpty.string_of_uint d) = Some (Z.of_N (Pos.of_uint d)).
Proof.
  intros Hd. rewrite <- int_tail_of_uint.
  destruct d; [congruence | reflexivity ..].
Qed.

Lemma no_blank_of_uint (d : Decimal.uint) :
  no_blank (NilEmpty.string_of_uint d) = true.
Proof.
  induction d; [reflexivity | ..];
    cbn [NilEmpty.string_of_uint]; rewrite no_blank_cons, IHd; reflexivity.
Qed.

Lemma string_of_pos (p : positive) :
  Py.str_of_int (Z.pos p) = NilEmpty.string_of_uint (Pos.to_uint p) /\
  Py.str_of_int (Z.neg p)
  = String "-" (NilEmpty.string_of_uint (Pos.to_uint p)).
Proof.
  unfold Py.str_of_int. cbn [Z.to_int NilZero.string_of_int].
  unfold NilZero.string_of_uint.
  pose proof (DecimalPos.Unsigned.to_uint_nonnil p) as Hn.
  destruct (Pos.to_uint p); [congruence | auto ..].
Qed.

Lemma str_of_int_no_blank (n : Z) :
  no_blank (Py.str_of_int n) = true /\ Py.str_of_int n <> EmptyString.
Proof.
  destruct n as [| p | p].
  - split; [reflexivity | discriminate].
  - rewrite (proj1 (string_of_pos p)).
    split; [apply no_blank_of_uint |].
    pose proof (DecimalPos.Unsigned.to_uint_nonnil p) as Hn.
    destruct (Pos.to_uint p); [congruence | discriminate ..].
  - rewrite (proj2 (string_of_pos p)).
    split; [rewrite no_blank_cons, no_blank_of_uint; reflexivity |
            discriminate].
Qed.

Lemma int_unsigned_of_pos (p : positive) :
  Py.int_unsigned (NilEmpty.string_of_uint (Pos.to_uint p)) = Some (Z.pos p).
Proof.
  rewrite int_unsigned_of_uint by apply DecimalPos.Unsigned.to_uint_nonnil.
  rewrite DecimalPos.Unsigned.of_to. reflexivity.
Qed.

Lemma strip_no_blank (s : string) :
  no_blank s = true -> s <> EmptyString -> Py.strip s = s.
Proof.
  intros Hs Hne.
  replace (Py.strip s) with (Py.strip (EmptyString ++ s ++ EmptyString))
    by (rewrite append_empty_r; reflexivity).
  apply strip_padded; auto.
Qed.

Lemma digit_is_no_sign (c : ascii) (d : Z) :
  Py.digit c = Some d ->
  Ascii.eqb c "+" = false /\ Ascii.eqb c "-" = false.
Proof.
  destruct c as [[] [] [] [] [] [] [] []]; intros H;
    try discriminate H; split; reflexivity.
Qed.

Lemma int_of_unsigned (s : string) (z : Z) :
  Py.strip s = s -> Py.int_unsigned s = Some z -> Py.int s = Some z.
Proof.
  intros Hs Hu. unfold Py.int. rewrite Hs.
  destruct s as [| c r]; [discriminate Hu |].
  destruct (Py.digit c) as [d |] eqn:Ed.
  - destruct (digit_is_no_sign c d Ed) as [-> ->]. exact Hu.
  - unfold Py.int_unsigned in Hu. rewrite Ed in Hu. discriminate Hu.
Qed.

(** [int] reads back what [str] prints. *)
Lemma int_of_str (n : Z) : Py.int (Py.str_of_int n) = Some n.
Proof.
  destruct (str_of_int_no_blank n) as [Hb Hne].
  pose proof (strip_no_blank _ Hb Hne) as Hs.
  destruct n as [| p | p]; [reflexivity | |].
  - apply int_of_unsigned; [exact Hs |].
    rewrite (proj1 (string_of_pos p)). apply int_unsigned_of_pos.
  - unfold Py.int. rewrite Hs, (proj2 (string_of_pos p)).
    change (option_map Z.opp
              (Py.int_unsigned
                 (NilEmpty.string_of_uint (Pos.to_uint p)))
            = Some (Z.neg p)).
    rewrite int_unsigned_of_pos. reflexivity.
Qed.

Lemma int_of_padded_str (n : Z) (a b : string) :
  is_blank a = true -> is_blank b = true ->
  Py.int (Py.strip (a ++ Py.str_of_int n ++ b)) = Some n.
Proof.
  intros Ha Hb. destruct (str_of_int_no_blank n) as [Hn Hne].
  rewrite strip_padded by assumption. apply int_of_str.
Qed.

(** X21: round trip.  Whatever integer [n] is written in decimal to the port
    file, with any white space before and after it, a logged-in client whose
    write is answered with status 200 sends one request, whose [json] field
    carries exactly [n] as [listen_port], and [last_applied_port] becomes
    [n]. *)
Theorem port_file_round_trip (w : world) (n : Z) (a b : string) :
  logged_in (qb_api w) = true ->
  fs w (port_file_path (port_handler w))
    = Content (a ++ Py.str_of_int n ++ b) ->
  is_blank a = true ->
  is_blank b = true ->
  last_applied_port w <> Some n ->
  write_ok (server w (sent w)) = true ->
  requests_in (new_events w (after (update_port w)))
    = [POST (host (qb_api w) ++ "/api/v2/app/setPreferences")
         [("json",
           json_dumps [("listen_port", PInt n); ("upnp", PBool false);
                       ("random_port", PBool false)])]] /\
  last_applied_port (after (update_port w)) = Some n.
Proof.
  intros Hli Hf Ha Hb Hl Hok.
  destruct (update_port_push_logged_in w _ n Hli Hf
              (int_of_padded_str n a b Ha Hb) Hl) as (Hr & _ & Hlast & _).
  rewrite Hok in Hlast. split; [exact Hr | exact Hlast].
Qed.

Lemma port_file_round_trip_witness :
  let w := sample_world true None
             (" " ++ Py.str_of_int 65535 ++ String "010" EmptyString)
             [reply 200 EmptyString None] in
  (logged_in (qb_api w) = true /\
   fs w (port_file_path (port_handler w))
     = Content (" " ++ Py.str_of_int 65535 ++ String "010" EmptyString) /\
   is_blank " " = true /\ is_blank (String "010" EmptyString) = true /\
   last_applied_port w <> Some 65535 /\
   write_ok (server w (sent w)) = true) /\
  last_applied_port (after (update_port w)) = Some 65535.
Proof.
  cbv zeta. split; [repeat split; discriminate |].
  exact (proj2 (port_file_round_trip
           (sample_world true None
              (" " ++ Py.str_of_int 65535 ++ String "010" EmptyString)
              [reply 200 EmptyString None])
           65535 " " (String "010" EmptyString)
           eq_refl eq_refl eq_refl eq_refl ltac:(discriminate) eq_refl)).
Defined.
